(** * The data-center bookkeeping of the dcemulator

    A shallow embedding of [emuvim/dcemulator/node.py] (the later of the two
    versions: the one with resource models, labels and the fabric-wide name
    check) and the properties of its allocation protocol.

    Python objects are mutable and shared, so the embedding keeps them in a
    store: a [Datacenter] and an [EmulatorCompute] are named by a location,
    methods take the location of [self], and every attribute access reads
    the store again.  The module global [DCDPID_BASE] and the class
    attribute [Datacenter.DC_COUNTER] are two fields of the same state.
    Methods are state transformers that either return or raise; the state
    reached when an exception leaves a method is kept, as in Python. *)

From Stdlib Require Import ZArith HexadecimalString HexadecimalN.
From stdpp Require Import gmap strings list fin_maps pretty.

(** ** Values *)

(** Object identity. *)
Abbreviation loc := positive (only parsing).

(** The exceptions of the methods.  [ReferenceError] is raised by the store
    for a location without an object; Python code can not name such a
    location, it only shows in states that no run produces. *)
Inductive exn :=
  | AssertionError
  | AttributeError
  | ReferenceError
  | KeyError (key : string)
  | Exception (msg : string)
  | ModelError (msg : string).

Inductive result (A : Type) :=
  | Return (a : A)
  | Raise (e : exn).
Arguments Return {A} a.
Arguments Raise {A} e.

(** A mapping of network parameters such as [{"ip": "10.0.0.254/8"}], and
    the [metadata] of a data center. *)
Abbreviation params := (gmap string string) (only parsing).

(** The [network] argument of [startCompute]: absent, one mapping, or a
    list of mappings. *)
Inductive NetworkArg :=
  | NetNone
  | NetDict (nw : params)
  | NetList (nws : list params).

#[global] Instance NetworkArg_eq_dec : EqDecision NetworkArg.
Proof. solve_decision. Defined.

(** The resource limits Docker keeps for a container. *)
Record ResourceGrant := {
  cpu_quota : option Z;
  cpu_period : option Z;
  cpu_shares : option Z;
  cpuset : option string;
  mem_limit : option Z;
  memswap_limit : option Z;
}.

Module EmulatorCompute.
Record t := mk {
  name : string;
  dimage : string;
  dcmd : option string;
  datacenter : option loc;
  flavor_name : option string;
  grant : ResourceGrant;
}.
Definition with_grant (c : t) (g : ResourceGrant) : t :=
  mk (name c) (dimage c) (dcmd c) (datacenter c) (flavor_name c) g.
End EmulatorCompute.

Module Switch.
Record t := mk {
  name : string;
  dpid : string;
}.
End Switch.

#[global] Instance Switch_eq_dec : EqDecision Switch.t.
Proof. solve_decision. Defined.

Module Link.
Record t := mk {
  node1 : loc;
  node2 : Switch.t;
  params1 : params;
}.
End Link.

Inductive DCNetworkRef := the_DCNetwork.

Module Datacenter.
Record t := mk {
  net : option DCNetworkRef;
  name : string;
  label : string;
  metadata : params;
  resource_log_path : option string;
  switch : option Switch.t;
  containers : gmap string loc;
  _resource_model : option loc;
}.
Definition with_net (dc : t) (n : option DCNetworkRef) : t :=
  mk n (name dc) (label dc) (metadata dc) (resource_log_path dc)
     (switch dc) (containers dc) (_resource_model dc).
Definition with_switch (dc : t) (s : option Switch.t) : t :=
  mk (net dc) (name dc) (label dc) (metadata dc) (resource_log_path dc)
     s (containers dc) (_resource_model dc).
Definition with_containers (dc : t) (m : gmap string loc) : t :=
  mk (net dc) (name dc) (label dc) (metadata dc) (resource_log_path dc)
     (switch dc) m (_resource_model dc).
Definition with_resource_model (dc : t) (rm : option loc) : t :=
  mk (net dc) (name dc) (label dc) (metadata dc) (resource_log_path dc)
     (switch dc) (containers dc) rm.
End Datacenter.

(** The state of the emulated network: the containers and switches it
    runs, the links between them, and the registrar of resource models. *)
Module DCNetwork.
Record t := mk {
  hosts : list loc;
  switches : list Switch.t;
  links : list Link.t;
  rm_registrar : list (loc * loc);
}.
Definition with_hosts (n : t) (hs : list loc) : t :=
  mk hs (switches n) (links n) (rm_registrar n).
Definition with_switches (n : t) (ss : list Switch.t) : t :=
  mk (hosts n) ss (links n) (rm_registrar n).
Definition with_links (n : t) (ls : list Link.t) : t :=
  mk (hosts n) (switches n) ls (rm_registrar n).
Definition with_rm_registrar (n : t) (rs : list (loc * loc)) : t :=
  mk (hosts n) (switches n) (links n) rs.
End DCNetwork.

(** What [Datacenter.getStatus] returns. *)
Record DatacenterStatus := {
  st_label : string;
  st_internalname : string;
  st_switch : string;
  st_n_running_containers : nat;
  st_metadata : params;
}.

(** One invocation of a resource model by a data center: the model, the
    container it was invoked for, and whether the call returned. *)
Inductive RMCall :=
  | CallAllocate (rm d : loc) (ok : bool)
  | CallFree (rm d : loc) (ok : bool).

#[global] Instance RMCall_eq_dec : EqDecision RMCall.
Proof. solve_decision. Defined.

(** ** Formatting *)

Definition sys_maxint : Z := 2 ^ 63 - 1.

(** [hex(n)] of Python 2: lower-case digits after ["0x"], a sign in front,
    and an ["L"] behind a number that has left the machine range (a
    counter that started as a plain integer is a long from there on). *)
Definition hex (n : Z) : string :=
  (if bool_decide (n < 0)%Z then "-" else EmptyString) +:+
  "0x" +:+ NilEmpty.string_of_uint (N.to_hex_uint (Z.abs_N n)) +:+
  (if bool_decide (- sys_maxint - 1 ≤ n ≤ sys_maxint)%Z then EmptyString
   else "L").

(** [s[k:]] *)
Fixpoint slice_from (k : nat) (s : string) : string :=
  match k, s with
  | O, _ => s
  | S k, String _ s => slice_from k s
  | S _, EmptyString => EmptyString
  end.

(** ["dc%d" % n], ["%s.s1" % name] and the messages of the exceptions. *)
Definition fmt_internal_name (n : Z) : string := "dc" +:+ pretty n.
Definition fmt_switch_name (name : string) : string := name +:+ ".s1".
Definition msg_already_exists (name : string) : string :=
  "Container with name " +:+ name +:+ " already exists.".
Definition msg_not_found (name : string) : string :=
  "Container with name " +:+ name +:+ " not found.".
Definition msg_already_assigned : string :=
  "There is already an resource model assigned to this DC.".

(** ** Resource models *)

(** The resource model of a data center is pluggable and no part of
    node.py, which only calls [allocate(d)] and [free(d)] on it: the
    models are a parameter of the embedding.  A model gets the location of
    the model object, the container (location and attributes) and the
    accounting state of all models; it returns or raises, may rewrite the
    resource limits of the container, and leaves a new accounting state. *)
Class BaseResourceModel (RMS : Type) := {
  allocate : loc → loc → EmulatorCompute.t → RMS →
             result unit * ResourceGrant * RMS;
  free : loc → loc → EmulatorCompute.t → RMS → result unit * RMS;
}.

(** ** The state of the process *)

Record World (RMS : Type) := mkWorld {
  DCDPID_BASE : Z;
  DC_COUNTER : Z;
  datacenters : gmap loc Datacenter.t;
  computes : gmap loc EmulatorCompute.t;
  network : DCNetwork.t;
  rm_state : RMS;
  rm_calls : list RMCall;
}.
Arguments mkWorld {RMS}.
Arguments DCDPID_BASE {RMS}.
Arguments DC_COUNTER {RMS}.
Arguments datacenters {RMS}.
Arguments computes {RMS}.
Arguments network {RMS}.
Arguments rm_state {RMS}.
Arguments rm_calls {RMS}.

Section WorldUpdates.
Context {RMS : Type}.
Implicit Types w : World RMS.

Definition with_DCDPID_BASE w (n : Z) : World RMS :=
  mkWorld n (DC_COUNTER w) (datacenters w) (computes w) (network w)
    (rm_state w) (rm_calls w).
Definition with_DC_COUNTER w (n : Z) : World RMS :=
  mkWorld (DCDPID_BASE w) n (datacenters w) (computes w) (network w)
    (rm_state w) (rm_calls w).
Definition with_datacenters w (m : gmap loc Datacenter.t) : World RMS :=
  mkWorld (DCDPID_BASE w) (DC_COUNTER w) m (computes w) (network w)
    (rm_state w) (rm_calls w).
Definition with_computes w (m : gmap loc EmulatorCompute.t) : World RMS :=
  mkWorld (DCDPID_BASE w) (DC_COUNTER w) (datacenters w) m (network w)
    (rm_state w) (rm_calls w).
Definition with_network w (n : DCNetwork.t) : World RMS :=
  mkWorld (DCDPID_BASE w) (DC_COUNTER w) (datacenters w) (computes w) n
    (rm_state w) (rm_calls w).
Definition with_rm_state w (s : RMS) : World RMS :=
  mkWorld (DCDPID_BASE w) (DC_COUNTER w) (datacenters w) (computes w)
    (network w) s (rm_calls w).
Definition with_rm_calls w (l : list RMCall) : World RMS :=
  mkWorld (DCDPID_BASE w) (DC_COUNTER w) (datacenters w) (computes w)
    (network w) (rm_state w) l.
End WorldUpdates.

(** The state when the module has been loaded: [DCDPID_BASE = 1000],
    [DC_COUNTER = 1], no objects, an empty network. *)
Definition initial_world {RMS} (s : RMS) : World RMS :=
  mkWorld 1000 1 ∅ ∅ (DCNetwork.mk [] [] [] []) s [].

(** ** Methods as state transformers *)

Definition M (RMS A : Type) : Type := World RMS → result A * World RMS.

#[global] Instance M_ret {RMS} : MRet (M RMS) := λ A a w, (Return a, w).
#[global] Instance M_bind {RMS} : MBind (M RMS) := λ A B f m w,
  match m w with
  | (Return a, w') => f a w'
  | (Raise e, w') => (Raise e, w')
  end.
#[global] Instance M_fmap {RMS} : FMap (M RMS) := λ A B f m,
  a ← m; mret (f a).

Section Emulator.
Context {RMS : Type} {RM : BaseResourceModel RMS}.

Local Abbreviation M := (M RMS).
Local Abbreviation World := (World RMS).

Definition raise {A} (e : exn) : M A := λ w, (Raise e, w).
Definition get_world : M World := λ w, (Return w, w).
Definition put_world (w : World) : M unit := λ _, (Return tt, w).

Fixpoint forM_ {A} (l : list A) (f : A → M unit) : M unit :=
  match l with
  | [] => mret tt
  | x :: l => f x;; forM_ l f
  end.

(** *** The store *)

Definition modify (f : World → World) : M unit := λ w, (Return tt, f w).

Definition get_dc (self : loc) : M Datacenter.t :=
  w ← get_world;
  match datacenters w !! self with
  | Some dc => mret dc
  | None => raise ReferenceError
  end.

Definition put_dc (self : loc) (dc : Datacenter.t) : M unit :=
  modify (λ w, with_datacenters w (<[self := dc]> (datacenters w))).

Definition get_compute (d : loc) : M EmulatorCompute.t :=
  w ← get_world;
  match computes w !! d with
  | Some c => mret c
  | None => raise ReferenceError
  end.

Definition put_compute (d : loc) (c : EmulatorCompute.t) : M unit :=
  modify (λ w, with_computes w (<[d := c]> (computes w))).

Definition put_network (n : DCNetwork.t) : M unit :=
  modify (λ w, with_network w n).

(** [self.net], for a method call on it: a data center that belongs to
    no network has [None] there, and [None] has no methods. *)
Definition self_net (self : loc) : M DCNetwork.t :=
  dc ← get_dc self;
  match Datacenter.net dc with
  | Some the_DCNetwork => w ← get_world; mret (network w)
  | None => raise AttributeError
  end.

(** *** EmulatorCompute *)

Definition no_limits : ResourceGrant :=
  {| cpu_quota := None; cpu_period := None; cpu_shares := None;
     cpuset := None; mem_limit := None; memswap_limit := None |}.

(** Modelled from the spec: [Docker.__init__] is Dockernet's; it keeps
    the name, the image and the command of the container and starts it
    without resource limits (no limit is passed by the data center). *)
Definition Docker__init__ (name dimage : string) (dcmd : option string)
    (datacenter : option loc) (flavor_name : option string)
    : EmulatorCompute.t :=
  EmulatorCompute.mk name dimage dcmd datacenter flavor_name no_limits.

(** [EmulatorCompute(name, dimage, **kwargs)]: a new object with the two
    attributes the class adds, then Docker's own. *)
Definition EmulatorCompute__init__ (name dimage : string)
    (dcmd : option string) (datacenter : option loc)
    (flavor_name : option string) : M loc :=
  w ← get_world;
  let d := fresh (dom (computes w)) in
  put_compute d (Docker__init__ name dimage dcmd datacenter flavor_name);;
  mret d.

(** *** The network of the emulator *)

(** The names of the containers of the network,
    [[c.name for c in self.net.getAllContainers()]]. *)
Definition container_names (w : World) (cs : list loc) : list string :=
  omap (λ c, EmulatorCompute.name <$> computes w !! c) cs.

(** Modelled from the spec: [DCNetwork.getAllContainers] is in net.py;
    it lists the containers of the whole network and changes nothing. *)
Definition getAllContainers (self : loc) : M (list loc) :=
  n ← self_net self;
  mret (DCNetwork.hosts n).

(** Modelled from the spec: [DCNetwork.addSwitch] is in net.py; it
    creates one switch with the given name and datapath identifier. *)
Definition addSwitch (self : loc) (name dpid : string) : M Switch.t :=
  n ← self_net self;
  let s := Switch.mk name dpid in
  put_network (DCNetwork.with_switches n (DCNetwork.switches n ++ [s]));;
  mret s.

(** Modelled from the spec: [DCNetwork.addDocker] is in net.py; it
    creates the container as an [EmulatorCompute] and rejects a name the
    network already has. *)
Definition addDocker (self : loc) (name dimage : string)
    (dcmd : option string) (datacenter : option loc)
    (flavor_name : option string) : M loc :=
  n ← self_net self;
  w ← get_world;
  if bool_decide (name ∈ container_names w (DCNetwork.hosts n))
  then raise (Exception (msg_already_exists name))
  else
    d ← EmulatorCompute__init__ name dimage dcmd datacenter flavor_name;
    put_network (DCNetwork.with_hosts n (DCNetwork.hosts n ++ [d]));;
    mret d.

(** Modelled from the spec: [DCNetwork.addLink] is in net.py; it
    attaches one link with the parameters of the container's end.  A
    link needs both end points: with [None] for the switch it raises. *)
Definition addLink (self : loc) (d : loc) (sw : option Switch.t)
    (params1 : params) : M unit :=
  n ← self_net self;
  match sw with
  | None => raise AttributeError
  | Some s =>
      put_network
        (DCNetwork.with_links n (DCNetwork.links n ++ [Link.mk d s params1]))
  end.

Definition link_between (d : loc) (sw : option Switch.t) (l : Link.t)
    : bool :=
  bool_decide (Link.node1 l = d) && bool_decide (Some (Link.node2 l) = sw).

(** Modelled from the spec: [DCNetwork.removeLink] is in net.py; called
    with [link=None] it removes the links between the two nodes. *)
Definition removeLink (self : loc) (node1 : loc) (node2 : option Switch.t)
    : M unit :=
  n ← self_net self;
  put_network
    (DCNetwork.with_links n
       (filter (λ l, ¬ link_between node1 node2 l) (DCNetwork.links n))).

(** Modelled from the spec: [DCNetwork.removeDocker] is in net.py; it
    removes the container of that name from the network. *)
Definition removeDocker (self : loc) (name : string) : M unit :=
  n ← self_net self;
  w ← get_world;
  put_network
    (DCNetwork.with_hosts n
       (filter (λ c, EmulatorCompute.name <$> computes w !! c ≠ Some name)
          (DCNetwork.hosts n))).

(** Modelled from the spec: the registrar of [self.net.rm_registrar] is
    in the resource-model package; [register(dc, rm)] records the pair. *)
Definition rm_registrar_register (self : loc) (rm : loc) : M unit :=
  n ← self_net self;
  put_network
    (DCNetwork.with_rm_registrar n
       (DCNetwork.rm_registrar n ++ [(self, rm)])).

(** *** Calls of the resource model *)

Definition is_Return {A} (r : result A) : bool :=
  match r with Return _ => true | Raise _ => false end.

Definition lift_result {A} (r : result A) : M A :=
  match r with Return a => mret a | Raise e => raise e end.

(** [rm.allocate(d)]: the model may rewrite the limits of [d]; the call
    is recorded, the newest call at the head of [rm_calls]. *)
Definition call_allocate (rm d : loc) : M unit :=
  c ← get_compute d;
  w ← get_world;
  let '(r, g, s) := allocate rm d c (rm_state w) in
  put_compute d (EmulatorCompute.with_grant c g);;
  modify (λ w, with_rm_state w s);;
  modify (λ w, with_rm_calls w
                 (CallAllocate rm d (is_Return r) :: rm_calls w));;
  lift_result r.

(** [rm.free(d)] *)
Definition call_free (rm d : loc) : M unit :=
  c ← get_compute d;
  w ← get_world;
  let '(r, s) := free rm d c (rm_state w) in
  modify (λ w, with_rm_state w s);;
  modify (λ w, with_rm_calls w (CallFree rm d (is_Return r) :: rm_calls w));;
  lift_result r.

(** *** Datacenter *)

(** [Datacenter(label, metadata, resource_log_path)]: a new object, and
    [__init__] on it. *)
Definition Datacenter__init__ (label : string) (metadata : params)
    (resource_log_path : option string) : M loc :=
  w ← get_world;
  let self := fresh (dom (datacenters w)) in
  let name := fmt_internal_name (DC_COUNTER w) in
  modify (λ w, with_DC_COUNTER w (DC_COUNTER w + 1));;
  put_dc self (Datacenter.mk None name label metadata resource_log_path
                 None ∅ None);;
  mret self.

Definition _get_next_dc_dpid (self : loc) : M Z :=
  modify (λ w, with_DCDPID_BASE w (DCDPID_BASE w + 1));;
  w ← get_world;
  mret (DCDPID_BASE w).

Definition create (self : loc) : M unit :=
  _ ← self_net self;
  dc ← get_dc self;
  let name := fmt_switch_name (Datacenter.name dc) in
  n ← _get_next_dc_dpid self;
  s ← addSwitch self name (slice_from 2 (hex n));
  dc ← get_dc self;
  put_dc self (Datacenter.with_switch dc (Some s)).

Definition start (self : loc) : M unit := mret tt.

Definition default_image : string := "ubuntu".
Definition default_flavor_name : string := "tiny".

(** Lines 135-141: the list of network mappings the links are made of. *)
Definition normalize_network (network : NetworkArg) : list params :=
  let network :=
    match network with
    | NetNone => NetDict ∅
    | _ => network
    end in
  let network :=
    match network with
    | NetDict nw => NetList [nw]
    | _ => network
    end in
  match network with
  | NetList nws => if bool_decide (length nws < 1) then nws ++ [∅] else nws
  | _ => []
  end.

Definition startCompute (self : loc) (name : option string)
    (image command : option string) (network : NetworkArg)
    (flavor_name : string) : M loc :=
  match name with
  | None => raise AssertionError
  | Some name =>
      cs ← getAllContainers self;
      w ← get_world;
      if bool_decide (name ∈ container_names w cs)
      then raise (Exception (msg_already_exists name))
      else
        let image := default default_image image in
        let network := normalize_network network in
        d ← addDocker self name image command (Some self)
              (Some flavor_name);
        dc ← get_dc self;
        match Datacenter._resource_model dc with
        | Some rm => call_allocate rm d
        | None => mret tt
        end;;
        forM_ network (λ nw,
          dc ← get_dc self;
          addLink self d (Datacenter.switch dc) nw);;
        dc ← get_dc self;
        put_dc self (Datacenter.with_containers dc
                       (<[name := d]> (Datacenter.containers dc)));;
        mret d
  end.

(** [self.containers[name]] and [del self.containers[name]] *)
Definition containers_getitem (self : loc) (name : string) : M loc :=
  dc ← get_dc self;
  match Datacenter.containers dc !! name with
  | Some d => mret d
  | None => raise (KeyError name)
  end.

Definition containers_delitem (self : loc) (name : string) : M unit :=
  dc ← get_dc self;
  match Datacenter.containers dc !! name with
  | Some _ =>
      put_dc self (Datacenter.with_containers dc
                     (delete name (Datacenter.containers dc)))
  | None => raise (KeyError name)
  end.

Definition stopCompute (self : loc) (name : option string) : M bool :=
  match name with
  | None => raise AssertionError
  | Some name =>
      dc ← get_dc self;
      if bool_decide (name ∉ dom (Datacenter.containers dc))
      then raise (Exception (msg_not_found name))
      else
        match Datacenter._resource_model dc with
        | Some rm =>
            d ← containers_getitem self name;
            call_free rm d
        | None => mret tt
        end;;
        _ ← self_net self;
        d ← containers_getitem self name;
        dc ← get_dc self;
        removeLink self d (Datacenter.switch dc);;
        removeDocker self name;;
        containers_delitem self name;;
        mret true
  end.

Definition listCompute (self : loc) : M (list loc) :=
  dc ← get_dc self;
  mret ((map_to_list (Datacenter.containers dc)).*2).

Definition getStatus (self : loc) : M DatacenterStatus :=
  dc ← get_dc self;
  match Datacenter.switch dc with
  | None => raise AttributeError
  | Some s =>
      mret {| st_label := Datacenter.label dc;
              st_internalname := Datacenter.name dc;
              st_switch := Switch.name s;
              st_n_running_containers := size (Datacenter.containers dc);
              st_metadata := Datacenter.metadata dc |}
  end.

Definition assignResourceModel (self : loc) (rm : loc) : M unit :=
  dc ← get_dc self;
  match Datacenter._resource_model dc with
  | Some _ => raise (Exception msg_already_assigned)
  | None =>
      put_dc self (Datacenter.with_resource_model dc (Some rm));;
      rm_registrar_register self rm
  end.

End Emulator.

(** ** Runs of the process *)

(** What the callers of the data centers do: they create data centers,
    put them into the network, drop them, and call their methods. *)
Inductive Op :=
  | ONew (label : string) (metadata : params)
      (resource_log_path : option string)
  | OAdopt (self : loc)
  | ODrop (self : loc)
  | ONextDpid (self : loc)
  | OCreate (self : loc)
  | OStart (self : loc)
  | OStartCompute (self : loc) (name : option string)
      (image command : option string) (network : NetworkArg)
      (flavor_name : string)
  | OStopCompute (self : loc) (name : option string)
  | OListCompute (self : loc)
  | OGetStatus (self : loc)
  | OAssignResourceModel (self rm : loc).

#[global] Instance Op_eq_dec : EqDecision Op.
Proof. solve_decision. Defined.

Section Runs.
Context {RMS : Type} {RM : BaseResourceModel RMS}.

Local Abbreviation M := (M RMS).
Local Abbreviation World := (World RMS).

(** Modelled from the spec: [DCNetwork.addDatacenter] is in net.py; the
    network takes the data center in, [dc.net = self]. *)
Definition adopt (self : loc) : M unit :=
  dc ← get_dc self;
  put_dc self (Datacenter.with_net dc (Some the_DCNetwork)).

(** The data center object is deleted. *)
Definition drop (self : loc) : M unit :=
  modify (λ w, with_datacenters w (delete self (datacenters w))).

(** The state a call leaves.  An exception ends the call, not the
    process: the caller goes on in the state the call has reached. *)
Definition exec (o : Op) (w : World) : World :=
  match o with
  | ONew label metadata resource_log_path =>
      (Datacenter__init__ label metadata resource_log_path w).2
  | OAdopt self => (adopt self w).2
  | ODrop self => (drop self w).2
  | ONextDpid self => (_get_next_dc_dpid self w).2
  | OCreate self => (create self w).2
  | OStart self => (start self w).2
  | OStartCompute self name image command network flavor_name =>
      (startCompute self name image command network flavor_name w).2
  | OStopCompute self name => (stopCompute self name w).2
  | OListCompute self => (listCompute self w).2
  | OGetStatus self => (getStatus self w).2
  | OAssignResourceModel self rm => (assignResourceModel self rm w).2
  end.

Definition run (os : list Op) (w : World) : World :=
  foldl (λ w o, exec o w) w os.

End Runs.

(** ** A resource model to run the code with *)

(** A model with room for [capacity] containers: [allocate] records the
    container and grants it a CPU share, and raises when the room is used
    up; [free] forgets the container, and raises for a container it has no
    record of. *)
Record CapacityRM := {
  capacity : nat;
  allocated : list loc;
}.

#[global] Instance CapacityRM_model : BaseResourceModel CapacityRM := {
  allocate rm d c s :=
    if bool_decide (length (allocated s) < capacity s)
    then (Return tt,
          {| cpu_quota := Some 1000%Z; cpu_period := Some 100000%Z;
             cpu_shares := cpu_shares (EmulatorCompute.grant c);
             cpuset := cpuset (EmulatorCompute.grant c);
             mem_limit := Some 4%Z;
             memswap_limit := memswap_limit (EmulatorCompute.grant c) |},
          {| capacity := capacity s; allocated := d :: allocated s |})
    else (Raise (ModelError "not enough resources"),
          EmulatorCompute.grant c, s);
  free rm d c s :=
    if bool_decide (d ∈ allocated s)
    then (Return tt,
          {| capacity := capacity s;
             allocated := filter (λ x, x ≠ d) (allocated s) |})
    else (Raise (KeyError (EmulatorCompute.name c)), s);
}.

Definition example_world : World CapacityRM :=
  initial_world {| capacity := 2; allocated := [] |}.

(** The model that admits everything: no limits, no accounting. *)
#[global] Instance NoOpModel : BaseResourceModel unit := {
  allocate rm d c s := (Return tt, EmulatorCompute.grant c, s);
  free rm d c s := (Return tt, s);
}.

(** ** The two halves of starting and stopping *)

Section Halves.
Context {RMS : Type}.
Implicit Types w : World RMS.

(** Lines 187-194 of [startCompute], once the container [d] exists: a
    link per network mapping, then the entry in [self.containers]. *)
Definition attach_and_record (self : loc) (dc : Datacenter.t)
    (name : string) (d : loc) (nws : list params) w
    : result loc * World RMS :=
  match Datacenter.switch dc with
  | None => (Raise AttributeError, w)
  | Some s =>
      (Return d,
       with_datacenters
         (with_network w
            (DCNetwork.with_links (network w)
               (DCNetwork.links (network w) ++ map (Link.mk d s) nws)))
         (<[self := Datacenter.with_containers dc
                      (<[name := d]> (Datacenter.containers dc))]>
            (datacenters w)))
  end.

(** Lines 229-235 of [stopCompute]: the links and the container leave
    the network, then the entry leaves [self.containers]. *)
Definition detach_and_forget (self : loc) (dc : Datacenter.t)
    (name : string) (d : loc) w : result bool * World RMS :=
  match Datacenter.net dc with
  | None => (Raise AttributeError, w)
  | Some _ =>
      (Return true,
       with_datacenters
         (with_network w
            (DCNetwork.mk
               (filter (λ c, EmulatorCompute.name <$> computes w !! c
                             ≠ Some name) (DCNetwork.hosts (network w)))
               (DCNetwork.switches (network w))
               (filter (λ l, ¬ link_between d (Datacenter.switch dc) l)
                  (DCNetwork.links (network w)))
               (DCNetwork.rm_registrar (network w))))
         (<[self := Datacenter.with_containers dc
                      (delete name (Datacenter.containers dc))]>
            (datacenters w)))
  end.
End Halves.

(** ** Worlds to run the code in *)

(** One data center of the example network, created and with a switch. *)
Definition world_created : World CapacityRM :=
  run [ONew "DC1" ∅ None; OAdopt 1; OCreate 1] example_world.

(** The same with a running container ["vnf1"]. *)
Definition world_running : World CapacityRM :=
  run [OStartCompute 1 (Some "vnf1") (Some "ubuntu") None
         (NetDict {["ip" := "10.0.0.1/24"]}) default_flavor_name]
    world_created.

(** ** How one call changes a data center *)

Section Evolution.
Context {RMS : Type}.

(** [evolves w w' o r old new]: the call [o] takes the state [w] to [w'],
    and the data center at [r] from [old] (nothing, when it is created
    by the call) to [new]. *)
Inductive evolves (w w' : World RMS) (o : Op) (r : loc)
    : option Datacenter.t → Datacenter.t → Prop :=
  | ev_same dc :
      evolves w w' o r (Some dc) dc
  | ev_new label metadata resource_log_path :
      o = ONew label metadata resource_log_path →
      r = fresh (dom (datacenters w)) →
      evolves w w' o r None
        (Datacenter.mk None (fmt_internal_name (DC_COUNTER w)) label
           metadata resource_log_path None ∅ None)
  | ev_adopt dc :
      o = OAdopt r →
      evolves w w' o r (Some dc)
        (Datacenter.with_net dc (Some the_DCNetwork))
  | ev_create dc :
      o = OCreate r →
      DCDPID_BASE w' = (DCDPID_BASE w + 1)%Z →
      evolves w w' o r (Some dc)
        (Datacenter.with_switch dc
           (Some (Switch.mk (fmt_switch_name (Datacenter.name dc))
                    (slice_from 2 (hex (DCDPID_BASE w + 1))))))
  | ev_start dc name image command nw fl d :
      o = OStartCompute r (Some name) image command nw fl →
      evolves w w' o r (Some dc)
        (Datacenter.with_containers dc
           (<[name := d]> (Datacenter.containers dc)))
  | ev_stop dc name :
      o = OStopCompute r (Some name) →
      evolves w w' o r (Some dc)
        (Datacenter.with_containers dc
           (delete name (Datacenter.containers dc)))
  | ev_assign dc rm :
      o = OAssignResourceModel r rm →
      Datacenter._resource_model dc = None →
      evolves w w' o r (Some dc)
        (Datacenter.with_resource_model dc (Some rm)).


End Evolution.

(** ** Sequences of start and stop calls *)

Inductive Call :=
  | CStart (name : string) (image command : option string)
      (network : NetworkArg) (flavor_name : string)
  | CStop (name : string).

(** What a call that returned has done. *)
Inductive Event :=
  | Started (name : string) (d : loc)
  | Stopped (name : string).

#[global] Instance Event_eq_dec : EqDecision Event.
Proof. solve_decision. Defined.

Section Calls.
Context {RMS : Type} {RM : BaseResourceModel RMS}.

Definition do_call (self : loc) (c : Call) : M RMS Event :=
  match c with
  | CStart name image command network flavor_name =>
      d ← startCompute self (Some name) image command network flavor_name;
      mret (Started name d)
  | CStop name =>
      stopCompute self (Some name);;
      mret (Stopped name)
  end.

(** The calls one after the other, as long as they return. *)
Fixpoint do_calls (self : loc) (cs : list Call) : M RMS (list Event) :=
  match cs with
  | [] => mret []
  | c :: cs =>
      e ← do_call self c;
      es ← do_calls self cs;
      mret (e :: es)
  end.
End Calls.

Definition started_names (cs : list Call) : list string :=
  omap (λ c, match c with CStart name _ _ _ _ => Some name | _ => None end)
    cs.

Definition answers (c : Call) (e : Event) : Prop :=
  match c, e with
  | CStart name _ _ _ _, Started name' _ => name = name'
  | CStop name, Stopped name' => name = name'
  | _, _ => False
  end.

(** The instances started and not yet stopped: those of the [Started]
    events that no [Stopped] event of the same name follows. *)
Fixpoint live_instances (es : list Event) : list (string * loc) :=
  match es with
  | [] => []
  | Started name d :: es =>
      if bool_decide (Stopped name ∈ es) then live_instances es
      else (name, d) :: live_instances es
  | Stopped _ :: es => live_instances es
  end.

(** The names of the [Started] events, and the entry an event makes or
    removes. *)
Definition started_events (es : list Event) : list string :=
  omap (λ e, match e with Started name _ => Some name | _ => None end) es.

Definition record_event (m : gmap string loc) (e : Event) : gmap string loc :=
  match e with
  | Started name d => <[name := d]> m
  | Stopped name => delete name m
  end.

(** ** The calls of the resource model *)

Definition call_target (c : RMCall) : loc :=
  match c with
  | CallAllocate _ d _ => d
  | CallFree _ d _ => d
  end.

Definition is_allocate (d : loc) (c : RMCall) : bool :=
  match c with
  | CallAllocate _ d' _ => bool_decide (d' = d)
  | CallFree _ _ _ => false
  end.



Definition is_free_ok (d : loc) (c : RMCall) : bool :=
  match c with
  | CallAllocate _ _ _ => false
  | CallFree _ d' ok => bool_decide (d' = d) && ok
  end.

Fixpoint count_calls (p : RMCall → bool) (log : list RMCall) : nat :=
  match log with
  | [] => 0
  | c :: log => (if p c then 1 else 0) + count_calls p log
  end.

(** [allocate] has been called for the instance: it was started while its
    data center had a resource model. *)
Definition allocate_called (d : loc) (log : list RMCall) : Prop :=
  ∃ rm ok, CallAllocate rm d ok ∈ log.


Section Pairing.
Context {RMS : Type}.
Implicit Types w : World RMS.

(** What the log and the entries of the data centers have to do with
    each other in every state of a run. *)
Record rm_inv w : Prop := {
  inv_targets :
    ∀ c, c ∈ rm_calls w → call_target c ∈ dom (computes w);
  inv_booked :
    ∀ self dc name d,
      datacenters w !! self = Some dc →
      Datacenter.containers dc !! name = Some d →
      (∃ c, computes w !! d = Some c ∧ EmulatorCompute.name c = name ∧
            EmulatorCompute.datacenter c = Some self) ∧
      is_Some (Datacenter.net dc) ∧
      (∀ rm, CallFree rm d true ∉ rm_calls w) ∧
      (∀ rm, CallAllocate rm d false ∉ rm_calls w) ∧
      (allocate_called d (rm_calls w) →
       is_Some (Datacenter._resource_model dc));
  inv_alloc_once :
    ∀ d, count_calls (is_allocate d) (rm_calls w) ≤ 1;
  inv_free_once :
    ∀ d, count_calls (is_free_ok d) (rm_calls w) ≤ 1;
  inv_free_last :
    ∀ d newer rm older c,
      rm_calls w = newer ++ CallFree rm d true :: older →
      c ∈ newer → call_target c ≠ d;
  inv_alloc_first :
    ∀ d newer rm ok older,
      rm_calls w = newer ++ CallFree rm d ok :: older →
      (∀ rm' ok', CallAllocate rm' d ok' ∉ newer) ∧
      (∀ rm', CallAllocate rm' d false ∉ older);
}.

(** The entries of [w'] are entries of [w], and no data center has lost
    its network or its resource model. *)
Definition bookings_kept w w' : Prop :=
  ∀ self dc',
    datacenters w' !! self = Some dc' →
    Datacenter.containers dc' = ∅ ∨
    ∃ dc, datacenters w !! self = Some dc ∧
          Datacenter.containers dc' ⊆ Datacenter.containers dc ∧
          (is_Some (Datacenter.net dc) → is_Some (Datacenter.net dc')) ∧
          (is_Some (Datacenter._resource_model dc) →
           is_Some (Datacenter._resource_model dc')).

(** What one call does to the log, the containers and the entries. *)
Inductive rm_trans w w' : Prop :=
  | tr_frame :
      rm_calls w' = rm_calls w →
      computes w' = computes w →
      bookings_kept w w' →
      rm_trans w w'
  | tr_start self dc name d c' extra :
      d ∉ dom (computes w) →
      computes w' = <[d := c']> (computes w) →
      EmulatorCompute.name c' = name →
      EmulatorCompute.datacenter c' = Some self →
      datacenters w !! self = Some dc →
      (extra = [] ∨
       ∃ rm ok, extra = [CallAllocate rm d ok] ∧
                is_Some (Datacenter._resource_model dc)) →
      rm_calls w' = extra ++ rm_calls w →
      (datacenters w' = datacenters w ∨
       is_Some (Datacenter.net dc) ∧
       (∀ rm, CallAllocate rm d false ∉ extra) ∧
       datacenters w' =
         <[self := Datacenter.with_containers dc
                     (<[name := d]> (Datacenter.containers dc))]>
           (datacenters w)) →
      rm_trans w w'
  | tr_stop self dc name d rm ok :
      datacenters w !! self = Some dc →
      Datacenter.containers dc !! name = Some d →
      computes w' = computes w →
      rm_calls w' = CallFree rm d ok :: rm_calls w →
      (ok = false ∧ datacenters w' = datacenters w ∨
       ok = true ∧ Datacenter.net dc = None ∨
       ok = true ∧
       datacenters w' =
         <[self := Datacenter.with_containers dc
                     (delete name (Datacenter.containers dc))]>
           (datacenters w)) →
      rm_trans w w'.
End Pairing.

(** ** More runs *)



(** The example data center with the resource model 7 assigned. *)
Definition world_with_model : World CapacityRM :=
  run [OAssignResourceModel 1 7] world_created.

(** Two data centers, both with a switch. *)
Definition two_datacenters : list Op :=
  [ONew "DC1" ∅ None; ONew "DC2" ∅ None; OAdopt 1; OAdopt 2;
   OCreate 1; OCreate 2].

(** The two data centers, and ["vnf1"] running in the first. *)
Definition world_two_datacenters : World CapacityRM :=
  run (two_datacenters ++
       [OStartCompute 1 (Some "vnf1") None None NetNone
          default_flavor_name])
    example_world.

(** Two containers are started and the first is stopped. *)
Definition example_calls : list Call :=
  [CStart "vnf1" None None NetNone default_flavor_name;
   CStart "vnf2" None None (NetList []) default_flavor_name;
   CStop "vnf1"].

Definition example_events : list Event :=
  [Started "vnf1" 1; Started "vnf2" 2; Stopped "vnf1"].

(** ** More about calls and runs *)

(** The data center a call is made on; a constructor call is made on
    none. *)
Definition op_self (o : Op) : option loc :=
  match o with
  | ONew _ _ _ => None
  | OAdopt self | ODrop self | ONextDpid self | OCreate self | OStart self
  | OStartCompute self _ _ _ _ _ | OStopCompute self _ | OListCompute self
  | OGetStatus self | OAssignResourceModel self _ => Some self
  end.

(** How many data centers the calls construct. *)
Fixpoint constructed (os : list Op) : Z :=
  match os with
  | [] => 0
  | ONew _ _ _ :: os => 1 + constructed os
  | _ :: os => constructed os
  end.

(** ** The containers of the network *)

Section Network.
Context {RMS : Type}.
Implicit Types w : World RMS.

(** What the network, the container objects and the entries of the data
    centers have to do with each other in every state of a run: the
    containers and the container ends of the links are objects of the
    store, the container of every entry is a container of the network,
    and no two containers of the network have the same name. *)
Record net_inv w : Prop := {
  ni_hosts :
    ∀ d, d ∈ DCNetwork.hosts (network w) → d ∈ dom (computes w);
  ni_links :
    ∀ l, l ∈ DCNetwork.links (network w) →
         Link.node1 l ∈ dom (computes w);
  ni_entries :
    ∀ self dc name d,
      datacenters w !! self = Some dc →
      Datacenter.containers dc !! name = Some d →
      d ∈ DCNetwork.hosts (network w);
  ni_names :
    NoDup (container_names w (DCNetwork.hosts (network w)));
}.
End Network.

(** ** More worlds *)

(** The example data center with a resource model that has no room. *)
Definition world_no_room : World CapacityRM :=
  run [ONew "DC1" ∅ None; OAdopt 1; OCreate 1; OAssignResourceModel 1 7]
    (initial_world {| capacity := 0; allocated := [] |}).

(** ["vnf1"] runs, and the data center gets its resource model after
    the start. *)
Definition world_assigned_late : World CapacityRM :=
  run [OAssignResourceModel 1 7] world_running.

(** A data center that no network has taken in. *)
Definition world_constructed : World CapacityRM :=
  run [ONew "DC1" ∅ None] example_world.

(** The data center of the network before it has its switch. *)
Definition world_adopted : World CapacityRM :=
  run [OAdopt 1] world_constructed.


(** What is called on the first data center while the second is left
    alone. *)
Definition calls_on_first : list Op :=
  [OStopCompute 1 (Some "vnf1"); ONew "DC3" ∅ None; OCreate 1;
   OAssignResourceModel 1 7;
   OStartCompute 1 (Some "vnf2") None None NetNone default_flavor_name].

(** * Properties *)

(** ** How the methods run *)

Section Running.
Context {RMS : Type} {RM : BaseResourceModel RMS}.
Implicit Types (w : World RMS) (self d rm : loc) (dc : Datacenter.t).

Lemma bind_run {A B} (m : M RMS A) (f : A → M RMS B) w :
  (m ≫= f) w =
  match m w with
  | (Return a, w') => f a w'
  | (Raise e, w') => (Raise e, w')
  end.
Proof. reflexivity. Qed.

Lemma get_world_bind {B} (f : World RMS → M RMS B) w :
  (get_world ≫= f) w = f w w.
Proof. reflexivity. Qed.

Lemma modify_bind {B} g (f : unit → M RMS B) w :
  (modify g ≫= f) w = f tt (g w).
Proof. reflexivity. Qed.

Lemma mret_bind {A B} (a : A) (f : A → M RMS B) w :
  (mret a ≫= f) w = f a w.
Proof. reflexivity. Qed.

Lemma raise_bind {A B} e (f : A → M RMS B) w :
  (raise e ≫= f) w = (Raise e, w).
Proof. reflexivity. Qed.

Lemma bind_assoc_run {A B C} (m : M RMS A) (f : A → M RMS B)
    (g : B → M RMS C) w :
  ((m ≫= f) ≫= g) w = (m ≫= (λ a, f a ≫= g)) w.
Proof. rewrite !bind_run. destruct (m w) as [[a|e] w']; reflexivity. Qed.

Lemma fmap_run {A B} (g : A → B) (m : M RMS A) w :
  (g <$> m) w =
  match m w with
  | (Return a, w') => (Return (g a), w')
  | (Raise e, w') => (Raise e, w')
  end.
Proof. reflexivity. Qed.

(** Reading [self] and [self.net]. *)
Lemma get_dc_bind {B} (f : Datacenter.t → M RMS B) w self dc :
  datacenters w !! self = Some dc → (get_dc self ≫= f) w = f dc w.
Proof.
  intros H. unfold get_dc. rewrite bind_assoc_run, get_world_bind, H.
  reflexivity.
Qed.

Lemma get_dc_dangling {B} (f : Datacenter.t → M RMS B) w self :
  datacenters w !! self = None →
  (get_dc self ≫= f) w = (Raise ReferenceError, w).
Proof.
  intros H. unfold get_dc. rewrite bind_assoc_run, get_world_bind, H.
  reflexivity.
Qed.

Lemma self_net_bind {B} (f : DCNetwork.t → M RMS B) w self dc r :
  datacenters w !! self = Some dc → Datacenter.net dc = Some r →
  (self_net self ≫= f) w = f (network w) w.
Proof.
  intros H Hn. unfold self_net.
  rewrite bind_assoc_run, (get_dc_bind _ _ _ _ H), Hn. destruct r.
  reflexivity.
Qed.

Lemma self_net_dangling {B} (f : DCNetwork.t → M RMS B) w self :
  datacenters w !! self = None →
  (self_net self ≫= f) w = (Raise ReferenceError, w).
Proof.
  intros H. unfold self_net.
  rewrite bind_assoc_run, (get_dc_dangling _ _ _ H). reflexivity.
Qed.

Lemma self_net_None {B} (f : DCNetwork.t → M RMS B) w self dc :
  datacenters w !! self = Some dc → Datacenter.net dc = None →
  (self_net self ≫= f) w = (Raise AttributeError, w).
Proof.
  intros H Hn. unfold self_net.
  rewrite bind_assoc_run, (get_dc_bind _ _ _ _ H), Hn. reflexivity.
Qed.

Lemma get_compute_bind {B} (f : EmulatorCompute.t → M RMS B) w d c :
  computes w !! d = Some c → (get_compute d ≫= f) w = f c w.
Proof.
  intros H. unfold get_compute. rewrite bind_assoc_run, get_world_bind, H.
  reflexivity.
Qed.

Lemma get_compute_dangling {B} (f : EmulatorCompute.t → M RMS B) w d :
  computes w !! d = None →
  (get_compute d ≫= f) w = (Raise ReferenceError, w).
Proof.
  intros H. unfold get_compute. rewrite bind_assoc_run, get_world_bind, H.
  reflexivity.
Qed.

Ltac mstep :=
  first
    [ rewrite bind_assoc_run
    | rewrite get_world_bind
    | rewrite modify_bind
    | rewrite mret_bind
    | rewrite raise_bind
    | erewrite get_dc_bind by (simpl; eassumption)
    | erewrite self_net_bind by (simpl; eassumption)
    | erewrite get_compute_bind by (simpl; eassumption) ].

(** The loop over the network mappings. *)
Lemma forM_addLink {B} (f : unit → M RMS B) w self dc r d s nws :
  datacenters w !! self = Some dc → Datacenter.net dc = Some r →
  Datacenter.switch dc = Some s →
  (forM_ nws (λ nw, dc ← get_dc self;
                    addLink self d (Datacenter.switch dc) nw) ≫= f) w =
  f tt (with_network w
          (DCNetwork.with_links (network w)
             (DCNetwork.links (network w) ++ map (Link.mk d s) nws))).
Proof.
  intros Hdc Hn Hs. revert w Hdc. induction nws as [|nw nws IH]; intros w Hdc.
  - simpl. rewrite mret_bind, app_nil_r. destruct w as [? ? ? ? []].
    reflexivity.
  - simpl. unfold addLink. repeat mstep. rewrite Hs.
    unfold put_network. repeat mstep.
    rewrite IH by done. simpl. rewrite <- app_assoc. reflexivity.
Qed.

Lemma normalize_network_nonempty nw : normalize_network nw ≠ [].
Proof. destruct nw as [|m|[|m l]]; done. Qed.

Lemma attach_run self dc r name d nw w :
  datacenters w !! self = Some dc → Datacenter.net dc = Some r →
  (forM_ (normalize_network nw)
     (λ nw, dc ← get_dc self; addLink self d (Datacenter.switch dc) nw);;
   dc ← get_dc self;
   put_dc self (Datacenter.with_containers dc
                  (<[name := d]> (Datacenter.containers dc)));;
   mret d) w =
  attach_and_record self dc name d (normalize_network nw) w.
Proof.
  intros Hdc Hn. unfold attach_and_record.
  destruct (Datacenter.switch dc) as [s|] eqn:Hs.
  - erewrite forM_addLink by done. unfold put_dc. repeat mstep.
    reflexivity.
  - pose proof (normalize_network_nonempty nw) as Hne.
    destruct (normalize_network nw) as [|nw0 nws]; [done|].
    simpl. unfold addLink. repeat mstep. rewrite Hs. reflexivity.
Qed.

Lemma call_allocate_bind {B} (f : unit → M RMS B) w rm d c :
  computes w !! d = Some c →
  (call_allocate rm d ≫= f) w =
  let '(r, g, s) := allocate rm d c (rm_state w) in
  let w' :=
    with_rm_calls
      (with_rm_state
         (with_computes w
            (<[d := EmulatorCompute.with_grant c g]> (computes w))) s)
      (CallAllocate rm d (is_Return r) :: rm_calls w) in
  match r with
  | Return _ => f tt w'
  | Raise e => (Raise e, w')
  end.
Proof.
  intros Hc. unfold call_allocate. repeat mstep.
  destruct (allocate rm d c (rm_state w)) as [[r g] s].
  unfold put_compute. repeat mstep. destruct r as [[]|e]; reflexivity.
Qed.

Lemma call_free_bind {B} (f : unit → M RMS B) w rm d c :
  computes w !! d = Some c →
  (call_free rm d ≫= f) w =
  let '(r, s) := free rm d c (rm_state w) in
  let w' := with_rm_calls (with_rm_state w s)
              (CallFree rm d (is_Return r) :: rm_calls w) in
  match r with
  | Return _ => f tt w'
  | Raise e => (Raise e, w')
  end.
Proof.
  intros Hc. unfold call_free. repeat mstep.
  destruct (free rm d c (rm_state w)) as [r s].
  repeat mstep. destruct r as [[]|e]; reflexivity.
Qed.

Lemma call_free_dangling {B} (f : unit → M RMS B) w rm d :
  computes w !! d = None →
  (call_free rm d ≫= f) w = (Raise ReferenceError, w).
Proof.
  intros Hc. unfold call_free. rewrite !bind_assoc_run.
  by rewrite get_compute_dangling.
Qed.

(** *** The calls in closed form *)

Lemma startCompute_unfold self name image command nw fl w :
  startCompute self (Some name) image command nw fl w =
  match datacenters w !! self with
  | None => (Raise ReferenceError, w)
  | Some dc =>
      match Datacenter.net dc with
      | None => (Raise AttributeError, w)
      | Some _ =>
          if bool_decide
               (name ∈ container_names w (DCNetwork.hosts (network w)))
          then (Raise (Exception (msg_already_exists name)), w)
          else
            let d := fresh (dom (computes w)) in
            let c := Docker__init__ name (default default_image image)
                       command (Some self) (Some fl) in
            let w1 :=
              with_network (with_computes w (<[d := c]> (computes w)))
                (DCNetwork.with_hosts (network w)
                   (DCNetwork.hosts (network w) ++ [d])) in
            match Datacenter._resource_model dc with
            | None =>
                attach_and_record self dc name d (normalize_network nw) w1
            | Some rm =>
                let '(r, g, s) := allocate rm d c (rm_state w) in
                let w2 :=
                  with_rm_calls
                    (with_rm_state
                       (with_computes w1
                          (<[d := EmulatorCompute.with_grant c g]>
                             (computes w))) s)
                    (CallAllocate rm d (is_Return r) :: rm_calls w) in
                match r with
                | Return _ =>
                    attach_and_record self dc name d
                      (normalize_network nw) w2
                | Raise e => (Raise e, w2)
                end
            end
      end
  end.
Proof.
  unfold startCompute, getAllContainers. rewrite bind_assoc_run.
  destruct (datacenters w !! self) as [dc|] eqn:Hdc;
    [|by rewrite self_net_dangling].
  destruct (Datacenter.net dc) as [r|] eqn:Hn;
    [|by erewrite self_net_None].
  repeat mstep.
  case_bool_decide as Hin; [reflexivity|].
  unfold addDocker. repeat mstep.
  rewrite bool_decide_false by done.
  unfold EmulatorCompute__init__, put_compute, put_network.
  repeat mstep.
  destruct (Datacenter._resource_model dc) as [rm|] eqn:Hrm.
  - erewrite call_allocate_bind by (simpl; apply lookup_insert_eq).
    simpl.
    destruct (allocate _ _ _ _) as [[[[]|e] g] s]; simpl.
    + erewrite <- attach_run by (simpl; eassumption).
      rewrite insert_insert_eq. reflexivity.
    + rewrite insert_insert_eq. reflexivity.
  - rewrite mret_bind. erewrite <- attach_run by (simpl; eassumption).
    reflexivity.
Qed.

Lemma containers_getitem_bind {B} (f : loc → M RMS B) w self dc name d :
  datacenters w !! self = Some dc →
  Datacenter.containers dc !! name = Some d →
  (containers_getitem self name ≫= f) w = f d w.
Proof.
  intros Hdc Hd. unfold containers_getitem. repeat mstep. rewrite Hd.
  reflexivity.
Qed.

Lemma stopCompute_unfold self name w :
  stopCompute self (Some name) w =
  match datacenters w !! self with
  | None => (Raise ReferenceError, w)
  | Some dc =>
      match Datacenter.containers dc !! name with
      | None => (Raise (Exception (msg_not_found name)), w)
      | Some d =>
          match Datacenter._resource_model dc with
          | None => detach_and_forget self dc name d w
          | Some rm =>
              match computes w !! d with
              | None => (Raise ReferenceError, w)
              | Some c =>
                  let '(r, s) := free rm d c (rm_state w) in
                  let w1 :=
                    with_rm_calls (with_rm_state w s)
                      (CallFree rm d (is_Return r) :: rm_calls w) in
                  match r with
                  | Return _ => detach_and_forget self dc name d w1
                  | Raise e => (Raise e, w1)
                  end
              end
          end
      end
  end.
Proof.
  unfold stopCompute.
  destruct (datacenters w !! self) as [dc|] eqn:Hdc;
    [|by rewrite get_dc_dangling].
  repeat mstep.
  destruct (Datacenter.containers dc !! name) as [d|] eqn:Hd.
  2:{ rewrite bool_decide_true by (by apply not_elem_of_dom). reflexivity. }
  rewrite bool_decide_false
    by (intros Hnot; apply not_elem_of_dom in Hnot; congruence).
  assert (Hfin : ∀ w1, datacenters w1 !! self = Some dc →
    (_ ← self_net self;
     d ← containers_getitem self name;
     dc ← get_dc self;
     removeLink self d (Datacenter.switch dc);;
     removeDocker self name;;
     containers_delitem self name;;
     mret true) w1 = detach_and_forget self dc name d w1).
  { intros w1 Hdc1. unfold detach_and_forget.
    destruct (Datacenter.net dc) as [r|] eqn:Hn;
      [|by erewrite self_net_None].
    repeat mstep.
    erewrite containers_getitem_bind by (simpl; eassumption).
    unfold removeLink, removeDocker, containers_delitem, put_network,
      put_dc.
    repeat mstep. rewrite Hd. repeat mstep. reflexivity. }
  destruct (Datacenter._resource_model dc) as [rm|] eqn:Hrm.
  - cbv beta iota. repeat mstep.
    erewrite containers_getitem_bind by eassumption.
    destruct (computes w !! d) as [c|] eqn:Hc;
      [|by rewrite call_free_dangling].
    erewrite call_free_bind by eassumption.
    destruct (free rm d c (rm_state w)) as [[[]|e] s]; simpl.
    + apply Hfin. simpl. done.
    + reflexivity.
  - rewrite mret_bind. by apply Hfin.
Qed.

Lemma startCompute_None self image command nw fl w :
  startCompute self None image command nw fl w = (Raise AssertionError, w).
Proof. reflexivity. Qed.

Lemma stopCompute_None self w :
  stopCompute self None w = (Raise AssertionError, w).
Proof. reflexivity. Qed.

Lemma init_unfold label metadata resource_log_path w :
  Datacenter__init__ label metadata resource_log_path w =
  let self := fresh (dom (datacenters w)) in
  (Return self,
   with_datacenters (with_DC_COUNTER w (DC_COUNTER w + 1))
     (<[self := Datacenter.mk None (fmt_internal_name (DC_COUNTER w))
                  label metadata resource_log_path None ∅ None]>
        (datacenters w))).
Proof. reflexivity. Qed.

Lemma next_dc_dpid_unfold self w :
  _get_next_dc_dpid self w =
  (Return (DCDPID_BASE w + 1)%Z, with_DCDPID_BASE w (DCDPID_BASE w + 1)).
Proof. reflexivity. Qed.

Lemma create_unfold self w :
  create self w =
  match datacenters w !! self with
  | None => (Raise ReferenceError, w)
  | Some dc =>
      match Datacenter.net dc with
      | None => (Raise AttributeError, w)
      | Some _ =>
          let n := (DCDPID_BASE w + 1)%Z in
          let s := Switch.mk (fmt_switch_name (Datacenter.name dc))
                     (slice_from 2 (hex n)) in
          (Return tt,
           with_datacenters
             (with_network (with_DCDPID_BASE w n)
                (DCNetwork.with_switches (network w)
                   (DCNetwork.switches (network w) ++ [s])))
             (<[self := Datacenter.with_switch dc (Some s)]>
                (datacenters w)))
      end
  end.
Proof.
  unfold create.
  destruct (datacenters w !! self) as [dc|] eqn:Hdc;
    [|by rewrite self_net_dangling].
  destruct (Datacenter.net dc) as [r|] eqn:Hn;
    [|by erewrite self_net_None].
  unfold _get_next_dc_dpid, addSwitch, put_network, put_dc.
  repeat mstep. reflexivity.
Qed.

Lemma assignResourceModel_unfold self rm w :
  assignResourceModel self rm w =
  match datacenters w !! self with
  | None => (Raise ReferenceError, w)
  | Some dc =>
      match Datacenter._resource_model dc with
      | Some _ => (Raise (Exception msg_already_assigned), w)
      | None =>
          let w1 :=
            with_datacenters w
              (<[self := Datacenter.with_resource_model dc (Some rm)]>
                 (datacenters w)) in
          match Datacenter.net dc with
          | None => (Raise AttributeError, w1)
          | Some _ =>
              (Return tt,
               with_network w1
                 (DCNetwork.with_rm_registrar (network w)
                    (DCNetwork.rm_registrar (network w) ++ [(self, rm)])))
          end
      end
  end.
Proof.
  unfold assignResourceModel.
  destruct (datacenters w !! self) as [dc|] eqn:Hdc;
    [|by rewrite get_dc_dangling].
  repeat mstep.
  destruct (Datacenter._resource_model dc) as [rm0|] eqn:Hrm;
    [reflexivity|].
  unfold put_dc, rm_registrar_register, put_network. repeat mstep.
  destruct (Datacenter.net dc) as [r|] eqn:Hn.
  - erewrite self_net_bind;
      [reflexivity | simpl; apply lookup_insert_eq | simpl; eassumption].
  - erewrite self_net_None;
      [reflexivity | simpl; apply lookup_insert_eq | simpl; eassumption].
Qed.

Lemma adopt_unfold self w :
  adopt self w =
  match datacenters w !! self with
  | None => (Raise ReferenceError, w)
  | Some dc =>
      (Return tt,
       with_datacenters w
         (<[self := Datacenter.with_net dc (Some the_DCNetwork)]>
            (datacenters w)))
  end.
Proof.
  unfold adopt.
  destruct (datacenters w !! self) as [dc|] eqn:Hdc;
    [|by rewrite get_dc_dangling].
  unfold put_dc. repeat mstep. reflexivity.
Qed.

Lemma listCompute_unfold self w :
  listCompute self w =
  match datacenters w !! self with
  | None => (Raise ReferenceError, w)
  | Some dc => (Return (map_to_list (Datacenter.containers dc)).*2, w)
  end.
Proof.
  unfold listCompute.
  destruct (datacenters w !! self) as [dc|] eqn:Hdc;
    [|by rewrite get_dc_dangling].
  by repeat mstep.
Qed.

Lemma getStatus_unfold self w :
  getStatus self w =
  match datacenters w !! self with
  | None => (Raise ReferenceError, w)
  | Some dc =>
      match Datacenter.switch dc with
      | None => (Raise AttributeError, w)
      | Some s =>
          (Return {| st_label := Datacenter.label dc;
                     st_internalname := Datacenter.name dc;
                     st_switch := Switch.name s;
                     st_n_running_containers :=
                       size (Datacenter.containers dc);
                     st_metadata := Datacenter.metadata dc |}, w)
      end
  end.
Proof.
  unfold getStatus.
  destruct (datacenters w !! self) as [dc|] eqn:Hdc;
    [|by rewrite get_dc_dangling].
  repeat mstep. by destruct (Datacenter.switch dc).
Qed.

End Running.

(** ** Refused calls *)

Section Refused.
Context {RMS : Type} {RM : BaseResourceModel RMS}.
Implicit Types (w : World RMS) (self d rm : loc) (dc : Datacenter.t).

Lemma elem_of_container_names w cs c co :
  c ∈ cs → computes w !! c = Some co →
  EmulatorCompute.name co ∈ container_names w cs.
Proof.
  intros Hc Hco. unfold container_names. apply list_elem_of_omap.
  exists c. by rewrite Hco.
Qed.

(** C2: when the network already has a container of that name, whichever
    data center it belongs to, [startCompute] raises the "already exists"
    exception and the state is the one before the call: no container, no
    allocation, no entry. *)
Theorem startCompute_name_conflict w self dc c co name image command nw fl :
  datacenters w !! self = Some dc →
  Datacenter.net dc = Some the_DCNetwork →
  c ∈ DCNetwork.hosts (network w) →
  computes w !! c = Some co →
  EmulatorCompute.name co = name →
  startCompute self (Some name) image command nw fl w =
  (Raise (Exception (msg_already_exists name)), w).
Proof.
  intros Hdc Hn Hc Hco <-. rewrite startCompute_unfold, Hdc, Hn.
  rewrite bool_decide_true by eauto using elem_of_container_names.
  reflexivity.
Qed.

(** C3: [stopCompute] of a name without an entry in [self.containers]
    raises the "not found" exception and the state is the one before the
    call. *)
Theorem stopCompute_unknown_name w self dc name :
  datacenters w !! self = Some dc →
  Datacenter.containers dc !! name = None →
  stopCompute self (Some name) w =
  (Raise (Exception (msg_not_found name)), w).
Proof. intros Hdc Hn. by rewrite stopCompute_unfold, Hdc, Hn. Qed.

(** C7: on a data center without a resource model the first
    [assignResourceModel] binds its model; the second call raises the
    "already assigned" exception and changes nothing, so the first model
    stays bound and the registrar is not called again. *)
Theorem assignResourceModel_twice w self dc rm1 rm2 :
  datacenters w !! self = Some dc →
  Datacenter._resource_model dc = None →
  let w1 := (assignResourceModel self rm1 w).2 in
  (∃ dc1, datacenters w1 !! self = Some dc1 ∧
          Datacenter._resource_model dc1 = Some rm1) ∧
  assignResourceModel self rm2 w1 =
  (Raise (Exception msg_already_assigned), w1).
Proof.
  intros Hdc Hrm w1.
  assert (Hdc1 : datacenters w1 !! self =
                 Some (Datacenter.with_resource_model dc (Some rm1))).
  { unfold w1. rewrite assignResourceModel_unfold, Hdc, Hrm.
    destruct (Datacenter.net dc); simpl; apply lookup_insert_eq. }
  split; [by eexists|].
  by rewrite assignResourceModel_unfold, Hdc1.
Qed.

(** C9, as the code has it: the guard of [startCompute] is
    [assert name is not None]; without a name the call raises an
    [AssertionError] and the state is the one before the call.  Every
    string is a name, the empty one too: in a data center with a switch
    and without a resource model, a string no container of the network
    has for a name gets its container and its entry. *)
Theorem startCompute_asserts_name :
  (∀ w self image command nw fl,
     startCompute self None image command nw fl w =
     (Raise AssertionError, w)) ∧
  (∀ w self dc s name image command nw fl,
     datacenters w !! self = Some dc →
     Datacenter.net dc = Some the_DCNetwork →
     Datacenter.switch dc = Some s →
     Datacenter._resource_model dc = None →
     name ∉ container_names w (DCNetwork.hosts (network w)) →
     ∃ d w' dc',
       startCompute self (Some name) image command nw fl w = (Return d, w') ∧
       is_Some (computes w' !! d) ∧
       d ∈ DCNetwork.hosts (network w') ∧
       datacenters w' !! self = Some dc' ∧
       Datacenter.containers dc' !! name = Some d).
Proof.
  split; [done|].
  intros w self dc s name image command nw fl Hdc Hn Hs Hrm Hin.
  rewrite startCompute_unfold, Hdc, Hn, bool_decide_false, Hrm by done.
  cbv zeta. unfold attach_and_record. rewrite Hs.
  eexists _, _, _. split; [done|]. simpl.
  split; [by rewrite lookup_insert_eq|].
  split; [apply elem_of_app; right; left|].
  split; [apply lookup_insert_eq|]. simpl. apply lookup_insert_eq.
Qed.

(** C8: a started container has the image ["ubuntu"] unless one was
    given, and one link to the switch of the data center for each
    network mapping, in the order of the list: a single empty mapping
    when no network or an empty list was given, the mapping itself for a
    bare mapping. *)
Theorem startCompute_defaults w self name image command nw fl d w' :
  startCompute self name image command nw fl w = (Return d, w') →
  ∃ dc s c specs,
    datacenters w !! self = Some dc ∧
    Datacenter.switch dc = Some s ∧
    computes w' !! d = Some c ∧
    EmulatorCompute.dimage c =
      match image with Some i => i | None => "ubuntu" end ∧
    DCNetwork.links (network w') =
      DCNetwork.links (network w) ++ map (Link.mk d s) specs ∧
    1 ≤ length specs ∧
    match nw with
    | NetNone => specs = [∅]
    | NetDict m => specs = [m]
    | NetList [] => specs = [∅]
    | NetList nws => specs = nws
    end.
Proof.
  destruct name as [name|]; [|done].
  rewrite startCompute_unfold.
  destruct (datacenters w !! self) as [dc|] eqn:Hdc; [|done].
  destruct (Datacenter.net dc); [|done].
  case_bool_decide; [done|]. cbv zeta.
  assert (Hspecs : 1 ≤ length (normalize_network nw) ∧
    match nw with
    | NetNone => normalize_network nw = [∅]
    | NetDict m => normalize_network nw = [m]
    | NetList [] => normalize_network nw = [∅]
    | NetList nws => normalize_network nw = nws
    end).
  { destruct nw as [|m|[|m l]]; simpl; split; (done || lia). }
  unfold attach_and_record.
  destruct (Datacenter._resource_model dc) as [rm|].
  - destruct (allocate _ _ _ _) as [[[[]|e] g] s0]; [|done].
    destruct (Datacenter.switch dc) as [s|] eqn:Hs; [|done].
    intros [= <- <-]. eexists dc, s, _, (normalize_network nw).
    repeat split; try done; try apply Hspecs.
    + simpl. apply lookup_insert_eq.
    + simpl. by destruct image.
  - destruct (Datacenter.switch dc) as [s|] eqn:Hs; [|done].
    intros [= <- <-]. eexists dc, s, _, (normalize_network nw).
    repeat split; try done; try apply Hspecs.
    + simpl. apply lookup_insert_eq.
    + simpl. by destruct image.
Qed.

End Refused.

(** ** Runs *)

(** From here on the calls are taken in their closed forms. *)
Arguments Datacenter__init__ : simpl never.
Arguments _get_next_dc_dpid : simpl never.
Arguments adopt : simpl never.
Arguments create : simpl never.
Arguments startCompute : simpl never.
Arguments stopCompute : simpl never.
Arguments listCompute : simpl never.
Arguments getStatus : simpl never.
Arguments assignResourceModel : simpl never.

Section RunLemmas.
Context {RMS : Type} {RM : BaseResourceModel RMS}.
Implicit Types (w : World RMS) (self d rm r : loc) (dc : Datacenter.t)
  (o : Op) (os : list Op).

Lemma run_nil w : run [] w = w.
Proof. reflexivity. Qed.

Lemma run_cons o os w : run (o :: os) w = run os (exec o w).
Proof. reflexivity. Qed.

Lemma run_snoc os o w : run (os ++ [o]) w = exec o (run os w).
Proof. unfold run. by rewrite foldl_app. Qed.


(** A property of the first state that every call keeps holds after the
    run; a relation between states that every call respects relates the
    two ends of a run. *)
Lemma run_invariant (P : World RMS → Prop) os w :
  (∀ o w, P w → P (exec o w)) → P w → P (run os w).
Proof.
  intros Hstep. revert w. induction os as [|o os IH]; intros w Hw; [done|].
  rewrite run_cons. by apply IH, Hstep.
Qed.

Lemma run_preorder (R : relation (World RMS)) os w :
  (∀ w, R w w) → (∀ w1 w2 w3, R w1 w2 → R w2 w3 → R w1 w3) →
  (∀ o w, R w (exec o w)) → R w (run os w).
Proof.
  intros Hrefl Htrans Hstep. revert w.
  induction os as [|o os IH]; intros w; [apply Hrefl|].
  rewrite run_cons. eapply Htrans; [apply Hstep | apply IH].
Qed.

Lemma exec_unfold o w :
  exec o w =
  match o with
  | ONew label metadata resource_log_path =>
      (Datacenter__init__ label metadata resource_log_path w).2
  | OAdopt self => (adopt self w).2
  | ODrop self => with_datacenters w (delete self (datacenters w))
  | ONextDpid self => with_DCDPID_BASE w (DCDPID_BASE w + 1)
  | OCreate self => (create self w).2
  | OStart self => w
  | OStartCompute self name image command network flavor_name =>
      (startCompute self name image command network flavor_name w).2
  | OStopCompute self name => (stopCompute self name w).2
  | OListCompute self => w
  | OGetStatus self => w
  | OAssignResourceModel self rm => (assignResourceModel self rm w).2
  end.
Proof.
  destruct o; try reflexivity; simpl.
  - rewrite listCompute_unfold. by destruct (datacenters w !! self).
  - rewrite getStatus_unfold.
    destruct (datacenters w !! self) as [dc|]; [|done].
    by destruct (Datacenter.switch dc).
Qed.

Lemma exec_evolves o w r dc' :
  datacenters (exec o w) !! r = Some dc' →
  evolves w (exec o w) o r (datacenters w !! r) dc'.
Proof.
  rewrite exec_unfold. destruct o as
    [label metadata rlp|self|self|self|self|self
    |self [name|] image command nw fl|self [name|]|self|self|self rm];
    cbv beta iota.
  - rewrite init_unfold. simpl. intros H.
    apply lookup_insert_Some in H as [[<- <-]|[_ ->]]; [|constructor].
    rewrite (not_elem_of_dom_1 (datacenters w)) by apply is_fresh.
    by econstructor.
  - rewrite adopt_unfold.
    destruct (datacenters w !! self) as [dc|] eqn:Hdc; simpl;
      [|intros ->; constructor].
    intros H. apply lookup_insert_Some in H as [[<- <-]|[_ ->]];
      [|constructor].
    rewrite Hdc. by constructor.
  - simpl. intros H. apply lookup_delete_Some in H as [_ ->]. constructor.
  - simpl. intros ->. constructor.
  - rewrite create_unfold.
    destruct (datacenters w !! self) as [dc|] eqn:Hdc; simpl;
      [|intros ->; constructor].
    destruct (Datacenter.net dc); simpl; [|intros ->; constructor].
    intros H. apply lookup_insert_Some in H as [[<- <-]|[_ ->]];
      [|constructor].
    rewrite Hdc. by constructor.
  - intros ->. constructor.
  - rewrite startCompute_unfold.
    destruct (datacenters w !! self) as [dc|] eqn:Hdc; simpl;
      [|intros ->; constructor].
    destruct (Datacenter.net dc); simpl; [|intros ->; constructor].
    case_bool_decide as Hin; simpl; [intros ->; constructor|].
    unfold attach_and_record.
    destruct (Datacenter._resource_model dc) as [rm|].
    + destruct (allocate _ _ _ _) as [[[[]|e] g] s]; simpl;
        [|intros ->; constructor].
      destruct (Datacenter.switch dc); simpl; [|intros ->; constructor].
      intros H. apply lookup_insert_Some in H as [[<- <-]|[_ ->]];
        [|constructor].
      rewrite Hdc. by econstructor.
    + destruct (Datacenter.switch dc); simpl; [|intros ->; constructor].
      intros H. apply lookup_insert_Some in H as [[<- <-]|[_ ->]];
        [|constructor].
      rewrite Hdc. by econstructor.
  - rewrite startCompute_None. simpl. intros ->. constructor.
  - rewrite stopCompute_unfold.
    destruct (datacenters w !! self) as [dc|] eqn:Hdc; simpl;
      [|intros ->; constructor].
    destruct (Datacenter.containers dc !! name) as [d|]; simpl;
      [|intros ->; constructor].
    unfold detach_and_forget.
    destruct (Datacenter._resource_model dc) as [rm|].
    + destruct (computes w !! d) as [c|]; simpl;
        [|intros ->; constructor].
      destruct (free _ _ _ _) as [[[]|e] s]; simpl;
        [|intros ->; constructor].
      destruct (Datacenter.net dc); simpl; [|intros ->; constructor].
      intros H. apply lookup_insert_Some in H as [[<- <-]|[_ ->]];
        [|constructor].
      rewrite Hdc. by econstructor.
    + destruct (Datacenter.net dc); simpl; [|intros ->; constructor].
      intros H. apply lookup_insert_Some in H as [[<- <-]|[_ ->]];
        [|constructor].
      rewrite Hdc. by econstructor.
  - rewrite stopCompute_None. simpl. intros ->. constructor.
  - intros ->. constructor.
  - intros ->. constructor.
  - rewrite assignResourceModel_unfold.
    destruct (datacenters w !! self) as [dc|] eqn:Hdc; simpl;
      [|intros ->; constructor].
    destruct (Datacenter._resource_model dc) eqn:Hrm; simpl;
      [intros ->; constructor|].
    destruct (Datacenter.net dc); simpl; intros H;
      (apply lookup_insert_Some in H as [[<- <-]|[_ ->]];
         [|constructor]); rewrite Hdc; by constructor.
Qed.

(** The two counters only count up. *)
Lemma exec_DC_COUNTER o w :
  DC_COUNTER (exec o w) =
  match o with
  | ONew _ _ _ => (DC_COUNTER w + 1)%Z
  | _ => DC_COUNTER w
  end.
Proof.
  rewrite exec_unfold.
  destruct o as [| | | | | |? [?|]|? [?|]| | |]; cbv beta iota;
    rewrite ?adopt_unfold, ?create_unfold, ?startCompute_unfold,
      ?stopCompute_unfold, ?assignResourceModel_unfold;
    unfold attach_and_record, detach_and_forget;
    repeat case_match; reflexivity.
Qed.

Lemma exec_DCDPID_BASE o w :
  (DCDPID_BASE w ≤ DCDPID_BASE (exec o w))%Z.
Proof.
  rewrite exec_unfold.
  destruct o as [| | | | | |? [?|]|? [?|]| | |]; cbv beta iota;
    rewrite ?adopt_unfold, ?create_unfold, ?startCompute_unfold,
      ?stopCompute_unfold, ?assignResourceModel_unfold,
      ?startCompute_None, ?stopCompute_None, ?init_unfold;
    unfold attach_and_record, detach_and_forget;
    repeat case_match; simpl; lia.
Qed.


Lemma run_DCDPID_BASE os w : (DCDPID_BASE w ≤ DCDPID_BASE (run os w))%Z.
Proof.
  apply (run_preorder (λ w w', DCDPID_BASE w ≤ DCDPID_BASE w')%Z).
  - intros; lia.
  - intros; lia.
  - apply exec_DCDPID_BASE.
Qed.

End RunLemmas.

(** ** Names and datapath identifiers *)

Lemma string_app_cons a s t : String a s +:+ t = String a (s +:+ t).
Proof. reflexivity. Qed.

Lemma string_app_empty_l t : EmptyString +:+ t = t.
Proof. reflexivity. Qed.

Lemma string_app_empty_r s : s +:+ EmptyString = s.
Proof.
  induction s as [|a s IH]; [done|]. by rewrite string_app_cons, IH.
Qed.


Lemma hex_digits_not_L s : NilEmpty.uint_of_string (s +:+ "L") = None.
Proof.
  induction s as [|a s IH]; [done|].
  rewrite string_app_cons. simpl. by rewrite IH.
Qed.

Lemma app_L_inj s1 s2 : s1 +:+ "L" = s2 +:+ "L" → s1 = s2.
Proof.
  revert s2. induction s1 as [|a s1 IH]; intros [|b s2];
    rewrite ?string_app_cons, ?string_app_empty_l; try done.
  - intros [= _ H]. destruct s2; by rewrite ?string_app_cons in H.
  - intros [= _ H]. destruct s1; by rewrite ?string_app_cons in H.
  - intros [= -> H]. f_equal. by apply IH.
Qed.

Lemma hex_digits_inj a b :
  NilEmpty.string_of_uint (N.to_hex_uint a) =
  NilEmpty.string_of_uint (N.to_hex_uint b) → a = b.
Proof.
  intros H. apply Unsigned.to_uint_inj.
  apply (f_equal NilEmpty.uint_of_string) in H.
  rewrite !NilEmpty.usu in H. by injection H.
Qed.

(** For a number from 0 on [hex(n)[2:]] is its digits, and an ["L"] when
    the number has left the machine range. *)
Lemma slice_hex n :
  (0 ≤ n)%Z →
  slice_from 2 (hex n) =
  NilEmpty.string_of_uint (N.to_hex_uint (Z.abs_N n)) +:+
  (if bool_decide (- sys_maxint - 1 ≤ n ≤ sys_maxint)%Z then EmptyString
   else "L").
Proof.
  intros Hn. unfold hex. rewrite (bool_decide_false (_ < 0)%Z) by lia.
  by rewrite string_app_empty_l, !string_app_cons, string_app_empty_l.
Qed.

(** The datapath identifier [hex(n)[2:]] tells the numbers from 0 on
    apart. *)
Lemma dpid_inj a b :
  (0 ≤ a)%Z → (0 ≤ b)%Z →
  slice_from 2 (hex a) = slice_from 2 (hex b) → a = b.
Proof.
  intros Ha Hb. rewrite !slice_hex by done.
  case_bool_decide as Ha'; case_bool_decide as Hb';
    rewrite ?string_app_empty_r; intros H.
  - apply hex_digits_inj in H. lia.
  - apply (f_equal NilEmpty.uint_of_string) in H.
    by rewrite NilEmpty.usu, hex_digits_not_L in H.
  - apply (f_equal NilEmpty.uint_of_string) in H.
    by rewrite NilEmpty.usu, hex_digits_not_L in H.
  - apply app_L_inj, hex_digits_inj in H. lia.
Qed.

Section Naming.
Context {RMS : Type} {RM : BaseResourceModel RMS}.
Implicit Types (w : World RMS) (self d rm r : loc) (dc : Datacenter.t)
  (o : Op) (os : list Op).


Lemma evolves_switch w w' o r dc dc' :
  evolves w w' o r (Some dc) dc' →
  Datacenter.switch dc' = Datacenter.switch dc ∨
  o = OCreate r ∧ DCDPID_BASE w' = (DCDPID_BASE w + 1)%Z ∧
  ∃ n, Datacenter.switch dc' =
       Some (Switch.mk n (slice_from 2 (hex (DCDPID_BASE w + 1)))).
Proof. inversion 1; subst; simpl; eauto. Qed.






(** C6: [_get_next_dc_dpid] returns a number above 1000, and a later call
    returns a greater number than an earlier one, whatever the process
    did before, between and with which data centers. *)
Theorem next_dc_dpid_increasing (s : RMS) os1 os2 self1 self2 :
  let first := _get_next_dc_dpid self1 (run os1 (initial_world s)) in
  let second := _get_next_dc_dpid self2 (run os2 first.2) in
  ∃ v1 v2,
    first.1 = Return v1 ∧ second.1 = Return v2 ∧ (1000 < v1 < v2)%Z.
Proof.
  intros first second. unfold second, first.
  rewrite !next_dc_dpid_unfold. simpl. do 2 eexists.
  split; [done|]. split; [done|].
  pose proof (run_DCDPID_BASE os1 (initial_world s)) as H1.
  pose proof (run_DCDPID_BASE os2
    (with_DCDPID_BASE (run os1 (initial_world s))
       (DCDPID_BASE (run os1 (initial_world s)) + 1))) as H2.
  simpl in *. lia.
Qed.


End Naming.

(** ** The status of a data center *)

Section Status.
Context {RMS : Type} {RM : BaseResourceModel RMS}.
Implicit Types (w : World RMS) (self d rm r : loc) (dc : Datacenter.t)
  (o : Op) (os : list Op).

(** Only [drop] takes a data center out of the store. *)
Lemma exec_lookup_is_Some o w r :
  is_Some (datacenters w !! r) → o ≠ ODrop r →
  is_Some (datacenters (exec o w) !! r).
Proof.
  intros Hr Ho. rewrite exec_unfold.
  destruct o as [| | | | | |? [?|]|? [?|]| | |]; simpl; try done;
    rewrite ?init_unfold, ?adopt_unfold, ?create_unfold,
      ?startCompute_unfold, ?stopCompute_unfold,
      ?assignResourceModel_unfold;
    unfold attach_and_record, detach_and_forget;
    repeat case_match; simpl; try done;
    rewrite ?lookup_insert_is_Some; try tauto.
  - destruct (decide (fresh (dom (datacenters w)) = r)); tauto.
  - destruct (decide (self = r)); tauto.
  - rewrite lookup_delete_is_Some. split; [congruence|done].
  - destruct (decide (self = r)); tauto.
  - destruct (decide (self = r)); tauto.
  - destruct (decide (self = r)); tauto.
  - destruct (decide (self = r)); tauto.
  - destruct (decide (self = r)); tauto.
  - destruct (decide (self = r)); tauto.
  - destruct (decide (self = r)); tauto.
Qed.

Lemma run_keeps_no_switch os w self dc :
  datacenters w !! self = Some dc → Datacenter.switch dc = None →
  OCreate self ∉ os → ODrop self ∉ os →
  ∃ dc', datacenters (run os w) !! self = Some dc' ∧
         Datacenter.switch dc' = None.
Proof.
  revert w dc. induction os as [|o os IH]; intros w dc Hdc Hs Hc Hd;
    [eauto|].
  rewrite run_cons.
  apply not_elem_of_cons in Hc as [Hc1 Hc2].
  apply not_elem_of_cons in Hd as [Hd1 Hd2].
  destruct (exec_lookup_is_Some o w self) as [dc' Hdc']; [eauto|done|].
  eapply IH; try done.
  pose proof (exec_evolves _ _ _ _ Hdc') as Hev. rewrite Hdc in Hev.
  destruct (evolves_switch _ _ _ _ _ _ Hev) as [->|[-> _]]; done.
Qed.

(** C10: a data center has no switch before [create]: from its creation
    on and until a [create] call on it, whatever else is called,
    [getStatus] raises the [AttributeError] of [None.name]; straight
    after a [create] that returned it returns the record with the label,
    the internal name, the name of the switch, the number of entries of
    [self.containers] and the metadata. *)
Theorem getStatus_needs_create :
  (∀ w label metadata resource_log_path os,
     let self := fresh (dom (datacenters w)) in
     let w1 := (Datacenter__init__ label metadata resource_log_path w).2 in
     OCreate self ∉ os → ODrop self ∉ os →
     getStatus self (run os w1) = (Raise AttributeError, run os w1)) ∧
  (∀ w self w',
     create self w = (Return tt, w') →
     ∃ dc, datacenters w' !! self = Some dc ∧
           getStatus self w' =
           (Return {| st_label := Datacenter.label dc;
                      st_internalname := Datacenter.name dc;
                      st_switch := fmt_switch_name (Datacenter.name dc);
                      st_n_running_containers :=
                        size (Datacenter.containers dc);
                      st_metadata := Datacenter.metadata dc |}, w')).
Proof.
  split.
  - intros w label metadata rlp os self w1 Hc Hd.
    destruct (run_keeps_no_switch os w1 self
                (Datacenter.mk None (fmt_internal_name (DC_COUNTER w))
                   label metadata rlp None ∅ None))
      as (dc' & Hdc' & Hs'); try done.
    { unfold w1. rewrite init_unfold. simpl. apply lookup_insert_eq. }
    by rewrite getStatus_unfold, Hdc', Hs'.
  - intros w self w'. rewrite create_unfold.
    destruct (datacenters w !! self) as [dc|] eqn:Hdc; [|done].
    destruct (Datacenter.net dc); [|done].
    intros [= <-]. eexists. split; [simpl; apply lookup_insert_eq|].
    rewrite getStatus_unfold. simpl. rewrite lookup_insert_eq. done.
Qed.

End Status.

(** ** What [listCompute] lists *)

Section Listing.
Context {RMS : Type} {RM : BaseResourceModel RMS}.
Implicit Types (w : World RMS) (self d rm r : loc) (dc : Datacenter.t)
  (m : gmap string loc) (es : list Event) (cs : list Call).

Lemma do_call_returns self c w e w' dc :
  datacenters w !! self = Some dc →
  do_call self c w = (Return e, w') →
  answers c e ∧
  ∃ dc', datacenters w' !! self = Some dc' ∧
         Datacenter.containers dc' =
         record_event (Datacenter.containers dc) e.
Proof.
  intros Hdc. destruct c as [name image command nw fl|name]; simpl.
  - rewrite bind_run, startCompute_unfold, Hdc.
    destruct (Datacenter.net dc); simpl; [|done].
    case_bool_decide; simpl; [done|]. unfold attach_and_record.
    destruct (Datacenter._resource_model dc) as [rm|].
    + destruct (allocate _ _ _ _) as [[[[]|?] g] s]; simpl; [|done].
      destruct (Datacenter.switch dc); simpl; [|done].
      intros [= <- <-]. split; [done|]. eexists.
      split; [simpl; apply lookup_insert_eq|done].
    + destruct (Datacenter.switch dc); simpl; [|done].
      intros [= <- <-]. split; [done|]. eexists.
      split; [simpl; apply lookup_insert_eq|done].
  - rewrite bind_run, stopCompute_unfold, Hdc.
    destruct (Datacenter.containers dc !! name) as [d|]; simpl; [|done].
    unfold detach_and_forget.
    destruct (Datacenter._resource_model dc) as [rm|].
    + destruct (computes w !! d) as [c|]; simpl; [|done].
      destruct (free _ _ _ _) as [[[]|?] s]; simpl; [|done].
      destruct (Datacenter.net dc); simpl; [|done].
      intros [= <- <-]. split; [done|]. eexists.
      split; [simpl; apply lookup_insert_eq|done].
    + destruct (Datacenter.net dc); simpl; [|done].
      intros [= <- <-]. split; [done|]. eexists.
      split; [simpl; apply lookup_insert_eq|done].
Qed.

Lemma do_calls_return self cs w es w' dc :
  datacenters w !! self = Some dc →
  do_calls self cs w = (Return es, w') →
  Forall2 answers cs es ∧
  ∃ dc', datacenters w' !! self = Some dc' ∧
         Datacenter.containers dc' =
         foldl record_event (Datacenter.containers dc) es.
Proof.
  revert w es dc. induction cs as [|c cs IH]; intros w es dc Hdc; simpl.
  - intros [= <- <-]. eauto.
  - rewrite bind_run.
    destruct (do_call self c w) as [[e|?] w1] eqn:Hc; [|done].
    destruct (do_call_returns _ _ _ _ _ _ Hdc Hc) as (He & dc1 & Hdc1 & Hm1).
    rewrite bind_run.
    destruct (do_calls self cs w1) as [[es1|?] w2] eqn:Hcs; [|done].
    intros [= <- <-].
    destruct (IH _ _ _ Hdc1 Hcs) as (Hes & dc2 & Hdc2 & Hm2).
    split; [by constructor|]. exists dc2. simpl. by rewrite <- Hm1.
Qed.

Lemma answers_started cs es :
  Forall2 answers cs es → started_names cs = started_events es.
Proof.
  induction 1 as [|c e cs es He _ IH]; [done|].
  unfold started_names, started_events in *.
  destruct c, e; simpl in *; try done; subst;
    first [exact IH | f_equal; exact IH].
Qed.

Lemma live_instances_started es :
  (live_instances es).*1 `sublist_of` started_events es.
Proof.
  induction es as [|[name d|name] es IH]; simpl; [done| |done].
  case_bool_decide; [by apply sublist_cons|]. by apply sublist_skip.
Qed.

(** Replaying the events on the entries [m] leaves the live instances,
    and of [m] what has not been stopped. *)
Lemma replay_events es m :
  NoDup (started_events es) →
  (∀ name, name ∈ started_events es → m !! name = None) →
  foldl record_event m es =
  list_to_map (live_instances es) ∪
  filter (λ kv, Stopped kv.1 ∉ es) m.
Proof.
  revert m. induction es as [|[name d|name] es IH]; intros m Hnd Hm; simpl.
  - rewrite (left_id_L ∅ (∪)). symmetry. apply map_filter_id.
    intros ? ? _. apply not_elem_of_nil.
  - unfold started_events in Hnd, Hm. simpl in Hnd, Hm.
    apply NoDup_cons in Hnd as [Hname Hnd].
    assert (Hmn : m !! name = None) by (apply Hm; left).
    rewrite IH; [|done|].
    2:{ intros n Hn. rewrite lookup_insert_ne by (by intros ->).
        apply Hm. by right. }
    assert (Hfilter : ∀ m' : gmap string loc,
      filter (λ kv, Stopped kv.1 ∉ Started name d :: es) m' =
      filter (λ kv, Stopped kv.1 ∉ es) m').
    { intros m'. apply map_filter_ext. intros k v _.
      rewrite not_elem_of_cons. split; [by intros [_ ?]|by split]. }
    rewrite Hfilter. case_bool_decide as Hstop.
    + f_equal. rewrite map_filter_insert_False by (simpl; tauto).
      by rewrite delete_id.
    + rewrite map_filter_insert_True by done. simpl.
      rewrite <- insert_union_l. symmetry. apply insert_union_r.
      apply not_elem_of_list_to_map_1. intros Hin. apply Hname.
      eapply elem_of_sublist; [done|apply live_instances_started].
  - unfold started_events in Hnd, Hm. simpl in Hnd, Hm.
    rewrite IH; [|done|].
    2:{ intros n Hn. apply lookup_delete_None. right. by apply Hm. }
    f_equal. apply map_eq. intros k. apply option_eq. intros v.
    rewrite !map_lookup_filter_Some, lookup_delete_Some. simpl.
    rewrite not_elem_of_cons. intuition congruence.
Qed.

(** C1: after a sequence of [startCompute] and [stopCompute] calls on a
    data center that had no entries, all returning and no name started
    twice, [listCompute] returns the instances started and not yet
    stopped: these, each once, and no others; the live names are
    pairwise different. *)
Theorem listCompute_started_not_stopped w self dc cs es w' :
  datacenters w !! self = Some dc →
  Datacenter.containers dc = ∅ →
  NoDup (started_names cs) →
  do_calls self cs w = (Return es, w') →
  Forall2 answers cs es ∧
  NoDup (live_instances es).*1 ∧
  ∃ ds, listCompute self w' = (Return ds, w') ∧
        ds ≡ₚ (live_instances es).*2.
Proof.
  intros Hdc Hempty Hnd Hrun.
  destruct (do_calls_return _ _ _ _ _ _ Hdc Hrun) as (Hes & dc' & Hdc' & Hm).
  rewrite (answers_started _ _ Hes) in Hnd.
  assert (Hlive : NoDup (live_instances es).*1)
    by (eapply sublist_NoDup; [done|apply live_instances_started]).
  split; [done|]. split; [done|].
  rewrite listCompute_unfold, Hdc'. eexists. split; [done|].
  rewrite Hm, Hempty, replay_events; [|done|by intros].
  rewrite map_filter_empty, (right_id_L ∅ (∪)).
  by rewrite map_to_list_to_map.
Qed.

End Listing.

(** ** Allocate and free *)

Lemma count_calls_none p log :
  (∀ c, c ∈ log → p c = false) → count_calls p log = 0.
Proof.
  induction log as [|c log IH]; intros H; simpl; [done|].
  rewrite (H c) by left. rewrite IH; [done|]. intros c' Hc'. apply H. by right.
Qed.


Lemma count_calls_app p l1 l2 :
  count_calls p (l1 ++ l2) = count_calls p l1 + count_calls p l2.
Proof. induction l1 as [|c l1 IH]; simpl; [done|]. rewrite IH. lia. Qed.

Lemma cons_eq_app_cases {A} (e x : A) l newer older :
  e :: l = newer ++ x :: older →
  newer = [] ∧ e = x ∧ l = older ∨
  ∃ newer', newer = e :: newer' ∧ l = newer' ++ x :: older.
Proof.
  destruct newer as [|e' newer']; simpl; intros [= -> ->]; eauto.
Qed.


Section PairingInvariant.
Context {RMS : Type} {RM : BaseResourceModel RMS}.
Implicit Types (w : World RMS) (self d rm r : loc) (dc : Datacenter.t)
  (o : Op) (os : list Op).

Lemma rm_inv_init (s : RMS) : rm_inv (initial_world s).
Proof.
  split; simpl.
  - intros c Hc. by apply elem_of_nil in Hc.
  - intros self dc name d Hdc. by rewrite lookup_empty in Hdc.
  - intros; lia.
  - intros; lia.
  - intros d [|? ?] ? ? ?; simpl; intros [=].
  - intros d [|? ?] ? ? ?; simpl; intros [=].
Qed.

(** An instance with an entry is the container of one data center and
    one name. *)
Lemma booked_once w self1 self2 dc1 dc2 name1 name2 d :
  rm_inv w →
  datacenters w !! self1 = Some dc1 →
  Datacenter.containers dc1 !! name1 = Some d →
  datacenters w !! self2 = Some dc2 →
  Datacenter.containers dc2 !! name2 = Some d →
  self1 = self2 ∧ name1 = name2.
Proof.
  intros Hinv H1 Hd1 H2 Hd2.
  destruct (inv_booked _ Hinv _ _ _ _ H1 Hd1) as ((c1 & Hc1 & <- & Hs1) & _).
  destruct (inv_booked _ Hinv _ _ _ _ H2 Hd2) as ((c2 & Hc2 & <- & Hs2) & _).
  split; congruence.
Qed.

Lemma rm_inv_frame w w' :
  rm_inv w → rm_calls w' = rm_calls w → computes w' = computes w →
  bookings_kept w w' → rm_inv w'.
Proof.
  intros Hinv Hlog Hcs Hkept. split; rewrite ?Hlog, ?Hcs;
    try apply Hinv.
  intros self dc' name d Hdc' Hd.
  destruct (Hkept _ _ Hdc') as [Hempty|(dc & Hdc & Hsub & Hnet & Hrm)].
  { by rewrite Hempty, lookup_empty in Hd. }
  eapply lookup_weaken in Hd; [|done].
  destruct (inv_booked _ Hinv _ _ _ _ Hdc Hd) as (? & ? & ? & ? & ?).
  repeat split; auto.
Qed.

Lemma rm_inv_start w w' self dc name d c' extra :
  rm_inv w →
  d ∉ dom (computes w) →
  computes w' = <[d := c']> (computes w) →
  EmulatorCompute.name c' = name →
  EmulatorCompute.datacenter c' = Some self →
  datacenters w !! self = Some dc →
  (extra = [] ∨
   ∃ rm ok, extra = [CallAllocate rm d ok] ∧
            is_Some (Datacenter._resource_model dc)) →
  rm_calls w' = extra ++ rm_calls w →
  (datacenters w' = datacenters w ∨
   is_Some (Datacenter.net dc) ∧
   (∀ rm, CallAllocate rm d false ∉ extra) ∧
   datacenters w' =
     <[self := Datacenter.with_containers dc
                 (<[name := d]> (Datacenter.containers dc))]>
       (datacenters w)) →
  rm_inv w'.
Proof.
  intros Hinv Hfresh Hcs Hname Hdcf Hdc Hextra Hlog Hdcs.
  assert (Hnew : ∀ c, c ∈ rm_calls w → call_target c ≠ d).
  { intros c Hc Heq. apply Hfresh. rewrite <- Heq.
    by apply (inv_targets _ Hinv). }
  assert (Hex : ∀ c, c ∈ extra → ∃ rm ok, c = CallAllocate rm d ok).
  { intros c Hc. destruct Hextra as [->|(rm & ok & -> & _)].
    - by apply elem_of_nil in Hc.
    - apply list_elem_of_singleton in Hc. eauto. }
  assert (Hold : ∀ self' dc' name' d',
    datacenters w !! self' = Some dc' →
    Datacenter.containers dc' !! name' = Some d' →
    (∃ c, computes w' !! d' = Some c ∧ EmulatorCompute.name c = name' ∧
          EmulatorCompute.datacenter c = Some self') ∧
    is_Some (Datacenter.net dc') ∧
    (∀ rm, CallFree rm d' true ∉ rm_calls w') ∧
    (∀ rm, CallAllocate rm d' false ∉ rm_calls w') ∧
    (allocate_called d' (rm_calls w') →
     is_Some (Datacenter._resource_model dc'))).
  { intros self' dc' name' d' Hdc' Hd'.
    destruct (inv_booked _ Hinv _ _ _ _ Hdc' Hd')
      as ((c & Hc & ? & ?) & ? & Hnf & Hna & Hrm).
    assert (d' ≠ d) by (intros ->; apply Hfresh, elem_of_dom; eauto).
    rewrite Hlog, Hcs. repeat split; auto.
    - exists c. by rewrite lookup_insert_ne.
    - intros rm [Hin|Hin]%elem_of_app; [|by eapply Hnf].
      by destruct (Hex _ Hin) as (? & ? & ?).
    - intros rm [Hin|Hin]%elem_of_app; [|by eapply Hna].
      destruct (Hex _ Hin) as (? & ? & ?). congruence.
    - intros (rm & ok & [Hin|Hin]%elem_of_app); [|apply Hrm; by exists rm, ok].
      destruct (Hex _ Hin) as (? & ? & ?). congruence. }
  split.
  - intros c. rewrite Hlog, Hcs, dom_insert_L.
    intros [Hin|Hin]%elem_of_app.
    + destruct (Hex _ Hin) as (? & ? & ->). simpl.
      apply elem_of_union. left. by apply elem_of_singleton.
    + apply elem_of_union. right. by apply (inv_targets _ Hinv).
  - intros self' dc' name' d' Hdc' Hd'.
    destruct Hdcs as [Hsame|(Hnet & Hnofail & Hupd)].
    { rewrite Hsame in Hdc'. eauto. }
    rewrite Hupd in Hdc'.
    apply lookup_insert_Some in Hdc' as [[<- <-]|[_ Hdc']]; [|eauto].
    simpl in Hd'.
    apply lookup_insert_Some in Hd' as [[<- <-]|[_ Hd']];
      [|by apply (Hold _ _ _ _ Hdc Hd')].
    rewrite Hlog, Hcs. repeat split; auto.
    + exists c'. by rewrite lookup_insert_eq.
    + intros rm [Hin|Hin]%elem_of_app.
      * by destruct (Hex _ Hin) as (? & ? & ?).
      * by apply (Hnew _ Hin).
    + intros rm [Hin|Hin]%elem_of_app; [by eapply Hnofail|].
      by apply (Hnew _ Hin).
    + intros (rm & ok & [Hin|Hin]%elem_of_app).
      * destruct Hextra as [->|(? & ? & _ & ?)]; [|done].
        by apply elem_of_nil in Hin.
      * by destruct (Hnew _ Hin).
  - intros d0. rewrite Hlog, count_calls_app.
    pose proof (inv_alloc_once _ Hinv d0).
    destruct Hextra as [->|(rm & ok & -> & _)]; simpl; [lia|].
    case_bool_decide as Hd; [subst d0|lia].
    rewrite (count_calls_none _ (rm_calls w)); [lia|].
    intros c Hc. destruct c as [rm' d' ok'|]; simpl; [|done].
    apply bool_decide_false. intros ->. by apply (Hnew _ Hc).
  - intros d0. rewrite Hlog, count_calls_app.
    pose proof (inv_free_once _ Hinv d0).
    destruct Hextra as [->|(rm & ok & -> & _)]; simpl; lia.
  - intros d0 newer rm older c. rewrite Hlog.
    destruct Hextra as [->|(rm' & ok & -> & _)]; simpl;
      [apply (inv_free_last _ Hinv)|].
    intros [(_ & [=] & _)|(newer' & -> & Hl)]%cons_eq_app_cases.
    intros [->|Hc]%elem_of_cons; simpl.
    + intros <-. eapply (Hnew (CallFree rm d true)); [|done].
      rewrite Hl. apply elem_of_app. right. left.
    + by eapply (inv_free_last _ Hinv).
  - intros d0 newer rm ok older. rewrite Hlog.
    destruct Hextra as [->|(rm' & ok' & -> & _)]; simpl;
      [apply (inv_alloc_first _ Hinv)|].
    intros [(_ & [=] & _)|(newer' & -> & Hl)]%cons_eq_app_cases.
    destruct (inv_alloc_first _ Hinv _ _ _ _ _ Hl) as [Hn Ho].
    split; [|done].
    intros rm0 ok0 [[= -> -> ->]|Hc]%elem_of_cons; [|by eapply Hn].
    eapply (Hnew (CallFree rm d ok)); [|done].
    rewrite Hl. apply elem_of_app. right. left.
Qed.

Lemma rm_inv_stop w w' self dc name d rm ok :
  rm_inv w →
  datacenters w !! self = Some dc →
  Datacenter.containers dc !! name = Some d →
  computes w' = computes w →
  rm_calls w' = CallFree rm d ok :: rm_calls w →
  (ok = false ∧ datacenters w' = datacenters w ∨
   ok = true ∧ Datacenter.net dc = None ∨
   ok = true ∧
   datacenters w' =
     <[self := Datacenter.with_containers dc
                 (delete name (Datacenter.containers dc))]>
       (datacenters w)) →
  rm_inv w'.
Proof.
  intros Hinv Hdc Hd Hcs Hlog Hdcs.
  destruct (inv_booked _ Hinv _ _ _ _ Hdc Hd)
    as ((c & Hc & Hcn & Hcd) & Hnet & Hnf & Hna & Hrm).
  destruct Hdcs as [[-> Hsame]|[[_ Hnone]|[-> Hupd]]];
    [| rewrite Hnone in Hnet; by destruct Hnet |].
  - (* the call of [free] raised *)
    split; rewrite ?Hlog, ?Hcs, ?Hsame.
    + intros c0 [->|Hc0]%elem_of_cons; [|by apply (inv_targets _ Hinv)].
      simpl. apply elem_of_dom. eauto.
    + intros self' dc' name' d' Hdc' Hd'.
      destruct (inv_booked _ Hinv _ _ _ _ Hdc' Hd')
        as (? & ? & Hnf' & Hna' & Hrm').
      repeat split; auto.
      * intros rm0 [[=]|Hin]%elem_of_cons. by eapply Hnf'.
      * intros rm0 [[=]|Hin]%elem_of_cons. by eapply Hna'.
      * intros (rm0 & ok0 & [[=]|Hin]%elem_of_cons). apply Hrm'.
        by exists rm0, ok0.
    + intros d0. simpl. apply (inv_alloc_once _ Hinv).
    + intros d0. simpl. rewrite andb_false_r. apply (inv_free_once _ Hinv).
    + intros d0 newer rm0 older c0.
      intros [(_ & [=] & _)|(newer' & -> & Hl)]%cons_eq_app_cases.
      intros [->|Hc0]%elem_of_cons; simpl;
        [|by eapply (inv_free_last _ Hinv)].
      intros <-. eapply Hnf. rewrite Hl. apply elem_of_app. right. left.
    + intros d0 newer rm0 ok0 older.
      intros [(-> & [= <- <- <-] & <-)|(newer' & -> & Hl)]%cons_eq_app_cases.
      * split; [|done]. intros ? ? Hin. by apply elem_of_nil in Hin.
      * destruct (inv_alloc_first _ Hinv _ _ _ _ _ Hl) as [Hn Ho].
        split; [|done].
        intros rm1 ok1 [[=]|Hin]%elem_of_cons. by eapply Hn.
  - (* [free] returned and the entry is gone *)
    assert (Hold : ∀ self' dc' name' d',
      datacenters w' !! self' = Some dc' →
      Datacenter.containers dc' !! name' = Some d' →
      d' ≠ d ∧
      ∃ dc0, datacenters w !! self' = Some dc0 ∧
             Datacenter.containers dc0 !! name' = Some d' ∧
             Datacenter.net dc' = Datacenter.net dc0 ∧
             Datacenter._resource_model dc' =
             Datacenter._resource_model dc0).
    { intros self' dc' name' d' Hdc' Hd'. rewrite Hupd in Hdc'.
      apply lookup_insert_Some in Hdc' as [[<- <-]|[Hne Hdc']].
      - simpl in Hd'. apply lookup_delete_Some in Hd' as [Hne Hd'].
        split; [|by eauto].
        intros ->. destruct (booked_once _ _ _ _ _ _ _ _ Hinv Hdc Hd Hdc Hd').
        congruence.
      - split; [|by eauto].
        intros ->.
        destruct (booked_once _ _ _ _ _ _ _ _ Hinv Hdc Hd Hdc' Hd').
        congruence. }
    split; rewrite ?Hlog, ?Hcs.
    + intros c0 [->|Hc0]%elem_of_cons; [|by apply (inv_targets _ Hinv)].
      simpl. apply elem_of_dom. eauto.
    + intros self' dc' name' d' Hdc' Hd'.
      destruct (Hold _ _ _ _ Hdc' Hd') as (Hne & dc0 & Hdc0 & Hd0 & -> & ->).
      destruct (inv_booked _ Hinv _ _ _ _ Hdc0 Hd0)
        as (? & ? & Hnf' & Hna' & Hrm').
      repeat split; auto.
      * intros rm0 [[=]|Hin]%elem_of_cons; [congruence|]. by eapply Hnf'.
      * intros rm0 [[=]|Hin]%elem_of_cons. by eapply Hna'.
      * intros (rm0 & ok0 & [[=]|Hin]%elem_of_cons). apply Hrm'.
        by exists rm0, ok0.
    + intros d0. simpl. apply (inv_alloc_once _ Hinv).
    + intros d0. simpl. rewrite andb_true_r.
      pose proof (inv_free_once _ Hinv d0).
      case_bool_decide as Hd0; [subst d0|lia].
      rewrite (count_calls_none _ (rm_calls w)); [lia|].
      intros [|rm' d' ok'] Hin; simpl; [done|].
      destruct ok'; [|by rewrite andb_false_r].
      rewrite andb_true_r. apply bool_decide_false. intros ->.
      by eapply Hnf.
    + intros d0 newer rm0 older c0.
      intros [(-> & _ & _)|(newer' & -> & Hl)]%cons_eq_app_cases.
      { intros Hin. by apply elem_of_nil in Hin. }
      intros [->|Hc0]%elem_of_cons; simpl;
        [|by eapply (inv_free_last _ Hinv)].
      intros <-. eapply Hnf. rewrite Hl. apply elem_of_app. right. left.
    + intros d0 newer rm0 ok0 older.
      intros [(-> & [= <- <- <-] & <-)|(newer' & -> & Hl)]%cons_eq_app_cases.
      * split; [|done]. intros ? ? Hin. by apply elem_of_nil in Hin.
      * destruct (inv_alloc_first _ Hinv _ _ _ _ _ Hl) as [Hn Ho].
        split; [|done].
        intros rm1 ok1 [[=]|Hin]%elem_of_cons. by eapply Hn.
Qed.

Lemma rm_trans_inv w w' : rm_inv w → rm_trans w w' → rm_inv w'.
Proof.
  intros Hinv [? ? ?| |]; eauto using rm_inv_frame, rm_inv_start,
    rm_inv_stop.
Qed.

Lemma bookings_kept_refl w w' :
  datacenters w' = datacenters w → bookings_kept w w'.
Proof.
  intros Heq self dc Hdc. rewrite Heq in Hdc. right. by exists dc.
Qed.

Lemma bookings_kept_insert w w' self dc' :
  datacenters w' = <[self := dc']> (datacenters w) →
  (Datacenter.containers dc' = ∅ ∨
   ∃ dc, datacenters w !! self = Some dc ∧
         Datacenter.containers dc' ⊆ Datacenter.containers dc ∧
         (is_Some (Datacenter.net dc) → is_Some (Datacenter.net dc')) ∧
         (is_Some (Datacenter._resource_model dc) →
          is_Some (Datacenter._resource_model dc'))) →
  bookings_kept w w'.
Proof.
  intros Heq Hdc' self' dc'' Hl. rewrite Heq in Hl.
  apply lookup_insert_Some in Hl as [[<- <-]|[_ Hl]]; [done|].
  right. by exists dc''.
Qed.

Lemma bookings_kept_delete w w' self :
  datacenters w' = delete self (datacenters w) → bookings_kept w w'.
Proof.
  intros Heq self' dc Hl. rewrite Heq in Hl.
  apply lookup_delete_Some in Hl as [_ Hl]. right. by exists dc.
Qed.

(** What any call does is one of the three transitions. *)
Lemma exec_rm_trans o w : rm_trans w (exec o w).
Proof.
  rewrite exec_unfold. destruct o as
    [label metadata rlp|self|self|self|self|self
    |self [name|] image command nw fl|self [name|]|self|self|self rm];
    cbv beta iota.
  - rewrite init_unfold. apply tr_frame; try done.
    eapply bookings_kept_insert; [done|by left].
  - rewrite adopt_unfold.
    destruct (datacenters w !! self) as [dc|] eqn:Hdc;
      (apply tr_frame; [done|done|]); [|by apply bookings_kept_refl].
    eapply bookings_kept_insert; [done|]. right. exists dc. by eauto.
  - apply tr_frame; try done. by eapply bookings_kept_delete.
  - apply tr_frame; try done. by apply bookings_kept_refl.
  - rewrite create_unfold.
    destruct (datacenters w !! self) as [dc|] eqn:Hdc;
      [|apply tr_frame; try done; by apply bookings_kept_refl].
    destruct (Datacenter.net dc);
      [|apply tr_frame; try done; by apply bookings_kept_refl].
    apply tr_frame; try done.
    eapply bookings_kept_insert; [done|]. right. by exists dc.
  - apply tr_frame; try done. by apply bookings_kept_refl.
  - rewrite startCompute_unfold.
    destruct (datacenters w !! self) as [dc|] eqn:Hdc;
      [|apply tr_frame; try done; by apply bookings_kept_refl].
    destruct (Datacenter.net dc) as [n|] eqn:Hn;
      [|apply tr_frame; try done; by apply bookings_kept_refl].
    case_bool_decide as Hin;
      [apply tr_frame; try done; by apply bookings_kept_refl|].
    cbv zeta. unfold attach_and_record.
    destruct (Datacenter._resource_model dc) as [rm|] eqn:Hrm.
    + destruct (allocate _ _ _ _) as [[[[]|e] g] s] eqn:Ha.
      * destruct (Datacenter.switch dc) as [sw|]; simpl;
          eapply (tr_start _ _ self dc name (fresh (dom (computes w))) _
                    [CallAllocate rm _ true]);
          try done; try apply is_fresh; eauto.
        right. repeat split; [by eauto|].
        intros rm' [=]%list_elem_of_singleton.
      * simpl.
        eapply (tr_start _ _ self dc name (fresh (dom (computes w))) _
                  [CallAllocate rm _ false]);
          try done; try apply is_fresh; eauto.
    + destruct (Datacenter.switch dc) as [sw|]; simpl;
        eapply (tr_start _ _ self dc name (fresh (dom (computes w))) _ []);
        try done; try apply is_fresh; eauto.
      right. repeat split; [by eauto|].
      intros rm' Hin'. by apply elem_of_nil in Hin'.
  - rewrite startCompute_None. apply tr_frame; try done.
    by apply bookings_kept_refl.
  - rewrite stopCompute_unfold.
    destruct (datacenters w !! self) as [dc|] eqn:Hdc;
      [|apply tr_frame; try done; by apply bookings_kept_refl].
    destruct (Datacenter.containers dc !! name) as [d|] eqn:Hd;
      [|apply tr_frame; try done; by apply bookings_kept_refl].
    unfold detach_and_forget.
    destruct (Datacenter._resource_model dc) as [rm|] eqn:Hrm.
    + destruct (computes w !! d) as [c|] eqn:Hc;
        [|apply tr_frame; try done; by apply bookings_kept_refl].
      destruct (free _ _ _ _) as [[[]|e] s] eqn:Hf.
      * destruct (Datacenter.net dc) as [n|] eqn:Hn; simpl;
          eapply (tr_stop _ _ self dc name d rm true); try done; eauto.
      * simpl. eapply (tr_stop _ _ self dc name d rm false); try done.
        by left.
    + destruct (Datacenter.net dc) as [n|] eqn:Hn; simpl;
        [|apply tr_frame; try done; by apply bookings_kept_refl].
      apply tr_frame; try done.
      eapply bookings_kept_insert; [done|]. right. exists dc.
      repeat split; try done. simpl. apply delete_subseteq.
  - rewrite stopCompute_None. apply tr_frame; try done.
    by apply bookings_kept_refl.
  - apply tr_frame; try done. by apply bookings_kept_refl.
  - apply tr_frame; try done. by apply bookings_kept_refl.
  - rewrite assignResourceModel_unfold.
    destruct (datacenters w !! self) as [dc|] eqn:Hdc;
      [|apply tr_frame; try done; by apply bookings_kept_refl].
    destruct (Datacenter._resource_model dc) eqn:Hrm;
      [apply tr_frame; try done; by apply bookings_kept_refl|].
    destruct (Datacenter.net dc); simpl; apply tr_frame; try done;
      (eapply bookings_kept_insert; [done|]); right; exists dc;
      repeat split; try done; simpl; eauto.
Qed.

Lemma run_rm_inv (s : RMS) os : rm_inv (run os (initial_world s)).
Proof.
  apply run_invariant; [|apply rm_inv_init].
  intros o w Hinv. eapply rm_trans_inv; [done|apply exec_rm_trans].
Qed.




End PairingInvariant.

(** ** Further properties of the calls *)

Section Isolation.
Context {RMS : Type} {RM : BaseResourceModel RMS}.
Implicit Types (w : World RMS) (self d rm r : loc) (dc : Datacenter.t)
  (o : Op) (os : list Op).

(** X1: a call changes no data center but the one it is made on:
    constructing a data center and whatever is called on the others leave
    the object as it was, entries, switch, network and resource model. *)
Theorem calls_leave_others_alone os w r dc :
  datacenters w !! r = Some dc →
  Forall (λ o, op_self o ≠ Some r) os →
  datacenters (run os w) !! r = Some dc.
Proof.
  intros Hdc Hos. revert w Hdc.
  induction Hos as [|o os Ho _ IH]; intros w Hdc; [done|].
  rewrite run_cons. apply IH.
  destruct (exec_lookup_is_Some o w r) as [dc' Hdc']; [by eauto| |].
  { intros ->. by apply Ho. }
  rewrite Hdc'. f_equal.
  apply exec_evolves in Hdc'. rewrite Hdc in Hdc'.
  inversion Hdc'; subst; try done; by destruct Ho.
Qed.

(** X2: in every state of a run an instance has its entry in one data
    center and under one name: it is the container of that name, and its
    [datacenter] attribute is that data center. *)
Theorem instance_in_one_map (s : RMS) os self1 self2 dc1 dc2 name1 name2 d :
  datacenters (run os (initial_world s)) !! self1 = Some dc1 →
  Datacenter.containers dc1 !! name1 = Some d →
  datacenters (run os (initial_world s)) !! self2 = Some dc2 →
  Datacenter.containers dc2 !! name2 = Some d →
  self1 = self2 ∧ name1 = name2 ∧
  ∃ c, computes (run os (initial_world s)) !! d = Some c ∧
       EmulatorCompute.name c = name1 ∧
       EmulatorCompute.datacenter c = Some self1.
Proof.
  intros H1 Hd1 H2 Hd2. pose proof (run_rm_inv s os) as Hinv.
  destruct (booked_once _ _ _ _ _ _ _ _ Hinv H1 Hd1 H2 Hd2) as [-> ->].
  repeat split. by destruct (inv_booked _ Hinv _ _ _ _ H1 Hd1) as [? _].
Qed.

Lemma NoDup_map_values `{Countable K} {A} (m : gmap K A) :
  (∀ i j x, m !! i = Some x → m !! j = Some x → i = j) →
  NoDup (map_to_list m).*2.
Proof.
  intros Hinj. apply NoDup_fmap_2_strong; [|apply NoDup_map_to_list].
  intros [i x] [j y] Hi Hj. simpl. intros <-.
  apply elem_of_map_to_list in Hi, Hj. f_equal. eauto.
Qed.

(** X3: [getStatus] and [listCompute] read only; in a state of a run the
    list has no instance twice, and it is as long as the number of
    running containers [getStatus] reports. *)
Theorem getStatus_counts_listCompute (s : RMS) os self st w' :
  getStatus self (run os (initial_world s)) = (Return st, w') →
  w' = run os (initial_world s) ∧
  ∃ ds, listCompute self w' = (Return ds, w') ∧
        NoDup ds ∧
        length ds = st_n_running_containers st.
Proof.
  rewrite getStatus_unfold.
  destruct (datacenters _ !! self) as [dc|] eqn:Hdc; [|done].
  destruct (Datacenter.switch dc); [|done].
  intros [= <- <-]. split; [done|].
  rewrite listCompute_unfold, Hdc. eexists. split; [done|]. split.
  - apply NoDup_map_values. intros i j x Hi Hj.
    by destruct (booked_once _ _ _ _ _ _ _ _ (run_rm_inv s os) Hdc Hi Hdc Hj).
  - simpl. by rewrite length_fmap, length_map_to_list.
Qed.

(** X4: when the resource model refuses the allocation, [startCompute]
    passes the exception on after the container was created: the data
    centers have no new entry and no link was made, but the container
    stays in the network, and from then on every [startCompute] of that
    name, on whichever data center of the network, raises the "already
    exists" exception. *)
Theorem refused_allocation_keeps_container
    w self dc rm name image command nw fl e g s' :
  datacenters w !! self = Some dc →
  Datacenter.net dc = Some the_DCNetwork →
  Datacenter._resource_model dc = Some rm →
  name ∉ container_names w (DCNetwork.hosts (network w)) →
  allocate rm (fresh (dom (computes w)))
    (Docker__init__ name (default default_image image) command (Some self)
       (Some fl)) (rm_state w) = (Raise e, g, s') →
  let call := startCompute self (Some name) image command nw fl w in
  call.1 = Raise e ∧
  datacenters call.2 = datacenters w ∧
  DCNetwork.links (network call.2) = DCNetwork.links (network w) ∧
  DCNetwork.hosts (network call.2) =
    DCNetwork.hosts (network w) ++ [fresh (dom (computes w))] ∧
  ∀ self2 dc2 image2 command2 nw2 fl2,
    datacenters call.2 !! self2 = Some dc2 →
    Datacenter.net dc2 = Some the_DCNetwork →
    startCompute self2 (Some name) image2 command2 nw2 fl2 call.2 =
    (Raise (Exception (msg_already_exists name)), call.2).
Proof.
  intros Hdc Hn Hrm Hin Ha call. unfold call.
  rewrite startCompute_unfold, Hdc, Hn, bool_decide_false, Hrm by done.
  cbv zeta. rewrite Ha. simpl. repeat split.
  intros self2 dc2 image2 command2 nw2 fl2 Hdc2 Hn2.
  rewrite startCompute_unfold. simpl. rewrite Hdc2, Hn2.
  rewrite bool_decide_true; [done|].
  apply list_elem_of_omap. exists (fresh (dom (computes w))). split.
  - apply elem_of_app. right. left.
  - simpl. by rewrite lookup_insert_eq.
Qed.

(** X5: when the resource model raises in [free], [stopCompute] passes
    the exception on and nothing is removed: the entry, the container and
    its links are as before, only the resource model has a new state. *)
Theorem failed_free_keeps_entry w self dc name d rm c e s' :
  datacenters w !! self = Some dc →
  Datacenter.containers dc !! name = Some d →
  Datacenter._resource_model dc = Some rm →
  computes w !! d = Some c →
  free rm d c (rm_state w) = (Raise e, s') →
  let call := stopCompute self (Some name) w in
  call.1 = Raise e ∧
  datacenters call.2 = datacenters w ∧
  network call.2 = network w ∧
  computes call.2 = computes w ∧
  rm_state call.2 = s'.
Proof.
  intros Hdc Hd Hrm Hc Hf call. unfold call.
  by rewrite stopCompute_unfold, Hdc, Hd, Hrm, Hc, Hf.
Qed.

(** X6: [assignResourceModel] binds the model before it registers it.
    In a data center of a network the call returns and the registrar has
    the one new pair; in a data center without a network the model is
    bound all the same, the call raises the [AttributeError] of
    [None.rm_registrar], nothing is registered, and no later call can
    register anything: it raises the "already assigned" exception. *)
Theorem assignResourceModel_binds_first w self dc rm :
  datacenters w !! self = Some dc →
  Datacenter._resource_model dc = None →
  let call := assignResourceModel self rm w in
  datacenters call.2 =
    <[self := Datacenter.with_resource_model dc (Some rm)]> (datacenters w) ∧
  match Datacenter.net dc with
  | Some _ =>
      call.1 = Return tt ∧
      DCNetwork.rm_registrar (network call.2) =
        DCNetwork.rm_registrar (network w) ++ [(self, rm)]
  | None =>
      call.1 = Raise AttributeError ∧
      network call.2 = network w ∧
      ∀ rm2, assignResourceModel self rm2 call.2 =
             (Raise (Exception msg_already_assigned), call.2)
  end.
Proof.
  intros Hdc Hrm call. unfold call.
  rewrite assignResourceModel_unfold, Hdc, Hrm.
  destruct (Datacenter.net dc); simpl; [done|].
  repeat split. intros rm2.
  rewrite assignResourceModel_unfold. simpl.
  by rewrite lookup_insert_eq.
Qed.

(** X7: [create] is not idempotent.  A second [create] on the data center
    returns like the first; the network then has both switches, of the
    same name and with two datapath identifiers, and the data center
    holds the second. *)
Theorem create_twice w self w1 :
  (0 ≤ DCDPID_BASE w)%Z →
  create self w = (Return tt, w1) →
  ∃ s1 s2 w2 dc1 dc2,
    create self w1 = (Return tt, w2) ∧
    DCNetwork.switches (network w2) =
      DCNetwork.switches (network w) ++ [s1; s2] ∧
    Switch.name s1 = Switch.name s2 ∧
    Switch.dpid s1 ≠ Switch.dpid s2 ∧
    datacenters w1 !! self = Some dc1 ∧ Datacenter.switch dc1 = Some s1 ∧
    datacenters w2 !! self = Some dc2 ∧ Datacenter.switch dc2 = Some s2.
Proof.
  intros Hbase. rewrite create_unfold.
  destruct (datacenters w !! self) as [dc|] eqn:Hdc; [|done].
  destruct (Datacenter.net dc) as [n|] eqn:Hn; [|done].
  cbv zeta. intros [= <-].
  rewrite create_unfold. simpl. rewrite lookup_insert_eq. simpl. rewrite Hn.
  eexists _, _, _, _, _. split; [done|]. simpl.
  split; [by rewrite <- app_assoc|]. split; [done|].
  split; [|by rewrite insert_insert_eq, !lookup_insert_eq].
  intros ?%dpid_inj; lia.
Qed.

Lemma run_DC_COUNTER_constructed os w :
  DC_COUNTER (run os w) = (DC_COUNTER w + constructed os)%Z.
Proof.
  revert w. induction os as [|o os IH]; intros w; [simpl; lia|].
  rewrite run_cons, IH, exec_DC_COUNTER. destruct o; simpl; lia.
Qed.

(** X8: data centers are named in the order of their construction: after
    any run in which [k] data centers were constructed, the next one is
    ["dc"] and the number [k + 1], whatever its label; it has no network,
    no switch, no entries and no resource model. *)
Theorem names_in_order_of_construction
    (s : RMS) os label metadata resource_log_path :
  let call := Datacenter__init__ label metadata resource_log_path
                (run os (initial_world s)) in
  ∃ self,
    call.1 = Return self ∧
    datacenters (run os (initial_world s)) !! self = None ∧
    datacenters call.2 !! self =
    Some (Datacenter.mk None ("dc" +:+ pretty (constructed os + 1)%Z) label
            metadata resource_log_path None ∅ None).
Proof.
  intros call. unfold call. rewrite init_unfold. cbv zeta.
  eexists. split; [done|]. split.
  - apply not_elem_of_dom, is_fresh.
  - simpl. rewrite lookup_insert_eq, run_DC_COUNTER_constructed. simpl.
    by rewrite (Z.add_comm 1).
Qed.

(** X9: a [stopCompute] that returns returns [True] and leaves no trace
    of the instance: its entry is gone and the other entries stay, no
    container of the network has the name any more (so the check of
    [startCompute] lets the name pass again), and no link is left between
    the instance and the switch; the container objects and the switches
    are untouched. *)
Theorem stopCompute_leaves_no_trace w self name b w' :
  stopCompute self (Some name) w = (Return b, w') →
  b = true ∧
  ∃ dc d dc',
    datacenters w !! self = Some dc ∧
    Datacenter.containers dc !! name = Some d ∧
    datacenters w' !! self = Some dc' ∧
    Datacenter.containers dc' = delete name (Datacenter.containers dc) ∧
    (name ∉ container_names w' (DCNetwork.hosts (network w'))) ∧
    (∀ l, l ∈ DCNetwork.links (network w') →
          ¬ (Link.node1 l = d ∧ Some (Link.node2 l) = Datacenter.switch dc)) ∧
    DCNetwork.switches (network w') = DCNetwork.switches (network w) ∧
    computes w' = computes w.
Proof.
  rewrite stopCompute_unfold.
  destruct (datacenters w !! self) as [dc|] eqn:Hdc; [|done].
  destruct (Datacenter.containers dc !! name) as [d|] eqn:Hd; [|done].
  assert (Hfin : ∀ w1, computes w1 = computes w → network w1 = network w →
    detach_and_forget self dc name d w1 = (Return b, w') →
    b = true ∧
    ∃ dc',
      datacenters w' !! self = Some dc' ∧
      Datacenter.containers dc' = delete name (Datacenter.containers dc) ∧
      (name ∉ container_names w' (DCNetwork.hosts (network w'))) ∧
      (∀ l, l ∈ DCNetwork.links (network w') →
            ¬ (Link.node1 l = d ∧
               Some (Link.node2 l) = Datacenter.switch dc)) ∧
      DCNetwork.switches (network w') = DCNetwork.switches (network w) ∧
      computes w' = computes w).
  { intros w1 Hcs Hnet. unfold detach_and_forget.
    destruct (Datacenter.net dc); [|done].
    intros [= <- <-]. split; [done|]. eexists. simpl.
    split; [apply lookup_insert_eq|]. split; [done|].
    rewrite Hcs, Hnet. split; [|split; [|done]].
    - unfold container_names. simpl. intros Hin.
      apply list_elem_of_omap in Hin as (c & Hc & Hname).
      apply list_elem_of_filter in Hc as [Hne _]. by rewrite Hcs in Hname.
    - intros l Hl [H1 H2]. apply list_elem_of_filter in Hl as [Hnot _].
      apply Hnot. unfold link_between.
      by rewrite !bool_decide_true. }
  assert (Hend : ∀ w1, computes w1 = computes w → network w1 = network w →
    detach_and_forget self dc name d w1 = (Return b, w') →
    b = true ∧
    ∃ dc0 d0 dc',
      Some dc = Some dc0 ∧
      Datacenter.containers dc0 !! name = Some d0 ∧
      datacenters w' !! self = Some dc' ∧
      Datacenter.containers dc' = delete name (Datacenter.containers dc0) ∧
      (name ∉ container_names w' (DCNetwork.hosts (network w'))) ∧
      (∀ l, l ∈ DCNetwork.links (network w') →
            ¬ (Link.node1 l = d0 ∧
               Some (Link.node2 l) = Datacenter.switch dc0)) ∧
      DCNetwork.switches (network w') = DCNetwork.switches (network w) ∧
      computes w' = computes w).
  { intros w1 Hcs Hnet Hrun.
    destruct (Hfin w1 Hcs Hnet Hrun) as [-> (dc' & Hrest)].
    split; [done|]. by exists dc, d, dc'. }
  destruct (Datacenter._resource_model dc) as [rm|]; [|by apply Hend].
  destruct (computes w !! d) as [c|]; [|done].
  destruct (free rm d c (rm_state w)) as [[[]|e] s1]; [|done].
  by apply Hend.
Qed.

(** X10: a [startCompute] that returns returns a container object that
    did not exist before: it has the name, the command and the flavor of
    the call, its [datacenter] attribute is the data center, it is the
    last container of the network and the entry of its name, and the
    other entries and objects are as before.  Its resource limits are
    those the resource model has allocated, and none without a model. *)
Theorem startCompute_records w self name image command nw fl d w' :
  startCompute self (Some name) image command nw fl w = (Return d, w') →
  ∃ dc dc' c,
    datacenters w !! self = Some dc ∧
    computes w !! d = None ∧
    computes w' = <[d := c]> (computes w) ∧
    EmulatorCompute.name c = name ∧
    EmulatorCompute.dcmd c = command ∧
    EmulatorCompute.datacenter c = Some self ∧
    EmulatorCompute.flavor_name c = Some fl ∧
    match Datacenter._resource_model dc with
    | None => EmulatorCompute.grant c = no_limits ∧ rm_state w' = rm_state w
    | Some rm =>
        allocate rm d (Docker__init__ name (default default_image image)
                         command (Some self) (Some fl)) (rm_state w) =
        (Return tt, EmulatorCompute.grant c, rm_state w')
    end ∧
    DCNetwork.hosts (network w') = DCNetwork.hosts (network w) ++ [d] ∧
    datacenters w' !! self = Some dc' ∧
    Datacenter.containers dc' = <[name := d]> (Datacenter.containers dc).
Proof.
  rewrite startCompute_unfold.
  destruct (datacenters w !! self) as [dc|] eqn:Hdc; [|done].
  destruct (Datacenter.net dc); [|done].
  case_bool_decide; [done|]. cbv zeta. unfold attach_and_record.
  assert (Hfresh : computes w !! fresh (dom (computes w)) = None)
    by apply not_elem_of_dom, is_fresh.
  destruct (Datacenter._resource_model dc) as [rm|] eqn:Hrm.
  - destruct (allocate _ _ _ _) as [[[[]|e] g] s] eqn:Ha; [|done].
    destruct (Datacenter.switch dc); [|done].
    intros [= <- <-]. exists dc. eexists _, _.
    split; [done|]. split; [done|]. simpl.
    split; [done|]. do 4 (split; [done|]). rewrite Hrm. simpl.
    do 2 (split; [done|]). split; [apply lookup_insert_eq|done].
  - destruct (Datacenter.switch dc); [|done].
    intros [= <- <-]. exists dc. eexists _, _.
    split; [done|]. split; [done|]. simpl.
    split; [done|]. do 4 (split; [done|]). rewrite Hrm. simpl.
    do 2 (split; [done|]). split; [apply lookup_insert_eq|done].
Qed.


(** X16: the resource model is called by [startCompute] and
    [stopCompute] of a data center that has one, and by nothing else: a
    call that leaves another log of model calls or another state of the
    models is a [startCompute] that called [allocate] of the model of its
    data center for the new container, or a [stopCompute] that called
    [free] of it for the container of the entry. *)
Theorem model_called_by_start_and_stop_only o w :
  rm_calls (exec o w) ≠ rm_calls w ∨ rm_state (exec o w) ≠ rm_state w →
  ∃ self dc rm name d ok,
    datacenters w !! self = Some dc ∧
    Datacenter._resource_model dc = Some rm ∧
    ((∃ image command nw fl,
        o = OStartCompute self (Some name) image command nw fl ∧
        computes w !! d = None ∧
        rm_calls (exec o w) = CallAllocate rm d ok :: rm_calls w) ∨
     (o = OStopCompute self (Some name) ∧
      Datacenter.containers dc !! name = Some d ∧
      rm_calls (exec o w) = CallFree rm d ok :: rm_calls w)).
Proof.
  rewrite exec_unfold. destruct o as
    [label metadata rlp|self|self|self|self|self
    |self [name|] image command nw fl|self [name|]|self|self|self rm];
    cbv beta iota.
  - rewrite init_unfold. simpl. by intros [[]|[]].
  - rewrite adopt_unfold.
    destruct (datacenters w !! self); simpl; by intros [[]|[]].
  - simpl. by intros [[]|[]].
  - simpl. by intros [[]|[]].
  - rewrite create_unfold.
    destruct (datacenters w !! self) as [dc|]; [|by intros [[]|[]]].
    destruct (Datacenter.net dc); simpl; by intros [[]|[]].
  - by intros [[]|[]].
  - rewrite startCompute_unfold.
    destruct (datacenters w !! self) as [dc|] eqn:Hdc; [|by intros [[]|[]]].
    destruct (Datacenter.net dc); [|by intros [[]|[]]].
    case_bool_decide as Hin; [by intros [[]|[]]|].
    cbv zeta. unfold attach_and_record.
    destruct (Datacenter._resource_model dc) as [rm|] eqn:Hrm.
    + intros _. exists self, dc, rm, name, (fresh (dom (computes w))).
      destruct (allocate _ _ _ _) as [[[[]|e] g] s].
      * exists true. split; [done|]. split; [done|]. left.
        exists image, command, nw, fl. split; [done|].
        split; [apply not_elem_of_dom, is_fresh|].
        by destruct (Datacenter.switch dc).
      * exists false. split; [done|]. split; [done|]. left.
        exists image, command, nw, fl. split; [done|].
        split; [apply not_elem_of_dom, is_fresh|done].
    + destruct (Datacenter.switch dc); simpl; by intros [[]|[]].
  - rewrite startCompute_None. by intros [[]|[]].
  - rewrite stopCompute_unfold.
    destruct (datacenters w !! self) as [dc|] eqn:Hdc; [|by intros [[]|[]]].
    destruct (Datacenter.containers dc !! name) as [d|] eqn:Hd;
      [|by intros [[]|[]]].
    unfold detach_and_forget.
    destruct (Datacenter._resource_model dc) as [rm|] eqn:Hrm.
    + destruct (computes w !! d) as [c|]; [|by intros [[]|[]]].
      intros _. exists self, dc, rm, name, d.
      destruct (free rm d c (rm_state w)) as [[[]|e] s].
      * exists true. split; [done|]. split; [done|]. right.
        split; [done|]. split; [done|].
        by destruct (Datacenter.net dc).
      * exists false. split; [done|]. split; [done|]. by right.
    + destruct (Datacenter.net dc); simpl; by intros [[]|[]].
  - rewrite stopCompute_None. by intros [[]|[]].
  - by intros [[]|[]].
  - by intros [[]|[]].
  - rewrite assignResourceModel_unfold.
    destruct (datacenters w !! self) as [dc|]; [|by intros [[]|[]]].
    destruct (Datacenter._resource_model dc); [by intros [[]|[]]|].
    destruct (Datacenter.net dc); simpl; by intros [[]|[]].
Qed.

End Isolation.
(** ** The network in the states of a run *)

Section NetworkLemmas.
Context {RMS : Type} {RM : BaseResourceModel RMS}.
Implicit Types (w : World RMS) (self d rm r : loc) (dc : Datacenter.t)
  (o : Op) (os : list Op).

Lemma sublist_omap {A B} (f : A → option B) (l1 l2 : list A) :
  l1 `sublist_of` l2 → omap f l1 `sublist_of` omap f l2.
Proof.
  induction 1 as [|x l1 l2 _ IH|x l1 l2 _ IH]; simpl; [done| |].
  - destruct (f x); [by constructor|done].
  - destruct (f x); [by constructor|done].
Qed.

Lemma NoDup_omap_inj {A B} (f : A → option B) (l : list A) x y b :
  NoDup (omap f l) → x ∈ l → y ∈ l → f x = Some b → f y = Some b → x = y.
Proof.
  induction l as [|a l IH]; simpl; intros Hnd Hx Hy Hfx Hfy;
    [by apply elem_of_nil in Hx|].
  apply elem_of_cons in Hx as [->|Hx], Hy as [->|Hy]; [done| | |].
  - rewrite Hfx in Hnd. apply NoDup_cons in Hnd as [Hnin _].
    destruct Hnin. apply list_elem_of_omap. by exists y.
  - rewrite Hfy in Hnd. apply NoDup_cons in Hnd as [Hnin _].
    destruct Hnin. apply list_elem_of_omap. by exists x.
  - apply IH; try done. destruct (f a); [|done].
    by apply NoDup_cons in Hnd as [_ ?].
Qed.

Lemma container_names_ext w w' cs :
  (∀ c, c ∈ cs → computes w' !! c = computes w !! c) →
  container_names w' cs = container_names w cs.
Proof.
  intros Heq. unfold container_names. apply list_omap_ext.
  induction cs as [|c cs IH]; constructor.
  - rewrite Heq; [done|by left].
  - apply IH. intros c' Hc'. apply Heq. by right.
Qed.

Lemma net_inv_init (s : RMS) : net_inv (initial_world s).
Proof.
  split; simpl.
  - intros d Hd. by apply elem_of_nil in Hd.
  - intros l Hl. by apply elem_of_nil in Hl.
  - intros self dc name d Hdc. by rewrite lookup_empty in Hdc.
  - constructor.
Qed.

(** A call that leaves the containers, the links and the objects alone
    and adds no entry. *)
Lemma net_inv_frame w w' :
  net_inv w →
  computes w' = computes w →
  DCNetwork.hosts (network w') = DCNetwork.hosts (network w) →
  DCNetwork.links (network w') = DCNetwork.links (network w) →
  bookings_kept w w' →
  net_inv w'.
Proof.
  intros [Hh Hl He Hn] Hcs Hhosts Hlinks Hkept. split.
  - intros d. rewrite Hhosts, Hcs. apply Hh.
  - intros l. rewrite Hlinks, Hcs. apply Hl.
  - intros self dc' name d Hdc' Hd. rewrite Hhosts.
    destruct (Hkept _ _ Hdc') as [Hempty|(dc & Hdc & Hsub & _)].
    + by rewrite Hempty, lookup_empty in Hd.
    + eapply He; [done|]. by eapply lookup_weaken.
  - rewrite Hhosts. by rewrite (container_names_ext w) by by rewrite Hcs.
Qed.

(** [startCompute] from its name check on, whether or not it gets to the
    links and the entry. *)
Lemma net_inv_start w w' self dc name d c' newlinks :
  net_inv w →
  d ∉ dom (computes w) →
  name ∉ container_names w (DCNetwork.hosts (network w)) →
  computes w' = <[d := c']> (computes w) →
  EmulatorCompute.name c' = name →
  DCNetwork.hosts (network w') = DCNetwork.hosts (network w) ++ [d] →
  DCNetwork.links (network w') = DCNetwork.links (network w) ++ newlinks →
  (∀ l, l ∈ newlinks → Link.node1 l = d) →
  datacenters w !! self = Some dc →
  (datacenters w' = datacenters w ∨
   datacenters w' =
     <[self := Datacenter.with_containers dc
                 (<[name := d]> (Datacenter.containers dc))]>
       (datacenters w)) →
  net_inv w'.
Proof.
  intros [Hh Hl He Hn] Hfresh Hname Hcs Hc' Hhosts Hlinks Hnew Hdc Hdcs.
  split.
  - intros d'. rewrite Hhosts, Hcs, dom_insert, elem_of_app, elem_of_union.
    intros [Hd'|Hd']; [right; by apply Hh|left].
    apply list_elem_of_singleton in Hd' as ->. by apply elem_of_singleton.
  - intros l. rewrite Hlinks, Hcs, dom_insert, elem_of_app, elem_of_union.
    intros [Hin|Hin]; [right; by apply Hl|left].
    apply elem_of_singleton. by apply Hnew.
  - intros self' dc' name' d' Hdc' Hd'. rewrite Hhosts, elem_of_app.
    destruct Hdcs as [Heq|Heq]; rewrite Heq in Hdc'.
    + left. by eapply He.
    + apply lookup_insert_Some in Hdc' as [[<- <-]|[_ Hdc']];
        [|left; by eapply He].
      simpl in Hd'. apply lookup_insert_Some in Hd' as [[<- <-]|[_ Hd']].
      * right. by apply list_elem_of_singleton.
      * left. by eapply He.
  - assert (container_names w' (DCNetwork.hosts (network w)) =
            container_names w (DCNetwork.hosts (network w))) as Hold.
    { apply container_names_ext. intros c Hc. rewrite Hcs.
      apply lookup_insert_ne. intros <-. by apply Hfresh, Hh. }
    rewrite Hhosts. unfold container_names in *. rewrite omap_app, Hold.
    simpl. rewrite Hcs, lookup_insert_eq. simpl. rewrite Hc'.
    apply NoDup_app. split; [done|]. split; [|apply NoDup_singleton].
    intros x Hx ->%list_elem_of_singleton. done.
Qed.

(** [stopCompute] once the entry is found and the resources are free. *)
Lemma net_inv_stop w w' self dc name d :
  net_inv w → rm_inv w →
  datacenters w !! self = Some dc →
  Datacenter.containers dc !! name = Some d →
  computes w' = computes w →
  DCNetwork.hosts (network w') =
    filter (λ c, EmulatorCompute.name <$> computes w !! c ≠ Some name)
      (DCNetwork.hosts (network w)) →
  DCNetwork.links (network w') =
    filter (λ l, ¬ link_between d (Datacenter.switch dc) l)
      (DCNetwork.links (network w)) →
  datacenters w' =
    <[self := Datacenter.with_containers dc
                (delete name (Datacenter.containers dc))]>
      (datacenters w) →
  net_inv w'.
Proof.
  intros [Hh Hl He Hn] Hrm Hdc Hd Hcs Hhosts Hlinks Hdcs. split.
  - intros d'. rewrite Hhosts, Hcs. intros [_ ?]%list_elem_of_filter.
    by apply Hh.
  - intros l. rewrite Hlinks, Hcs. intros [_ ?]%list_elem_of_filter.
    by apply Hl.
  - intros self' dc' name' d' Hdc' Hd'. rewrite Hdcs in Hdc'.
    assert (∃ dc0, datacenters w !! self' = Some dc0 ∧
                   Datacenter.containers dc0 !! name' = Some d' ∧
                   (self', name') ≠ (self, name))
      as (dc0 & Hdc0 & Hd0 & Hne).
    { apply lookup_insert_Some in Hdc' as [[<- <-]|[Hself Hdc']].
      - simpl in Hd'. apply lookup_delete_Some in Hd' as [Hname Hd'].
        exists dc. repeat split; [done|done|]. intros [=]. done.
      - exists dc'. repeat split; [done|done|]. intros [=]. done. }
    rewrite Hhosts. apply list_elem_of_filter.
    split; [|exact (He _ _ _ _ Hdc0 Hd0)].
    destruct (inv_booked _ Hrm _ _ _ _ Hdc0 Hd0)
      as ((c0 & Hc0 & Hn0 & _) & _).
    destruct (inv_booked _ Hrm _ _ _ _ Hdc Hd) as ((c & Hc & Hn1 & _) & _).
    rewrite Hc0. simpl. intros [= Hsame].
    assert (d' = d) as ->.
    { eapply (NoDup_omap_inj
                (λ c, EmulatorCompute.name <$> computes w !! c)
                (DCNetwork.hosts (network w)) d' d name Hn);
        [exact (He _ _ _ _ Hdc0 Hd0)|exact (He _ _ _ _ Hdc Hd)| |].
      - rewrite Hc0. simpl. by rewrite Hsame.
      - rewrite Hc. simpl. by rewrite Hn1. }
    destruct (booked_once _ _ _ _ _ _ _ _ Hrm Hdc0 Hd0 Hdc Hd) as [-> ->].
    done.
  - rewrite Hhosts. rewrite (container_names_ext w) by by rewrite Hcs.
    apply (sublist_NoDup _ _ Hn). apply sublist_omap, sublist_filter.
Qed.

Lemma exec_net_inv o w : rm_inv w → net_inv w → net_inv (exec o w).
Proof.
  intros Hrm Hinv. rewrite exec_unfold. destruct o as
    [label metadata rlp|self|self|self|self|self
    |self [name|] image command nw fl|self [name|]|self|self|self rm];
    cbv beta iota.
  - rewrite init_unfold. eapply net_inv_frame; try done.
    eapply bookings_kept_insert; [done|by left].
  - rewrite adopt_unfold.
    destruct (datacenters w !! self) as [dc|] eqn:Hdc;
      (eapply net_inv_frame; [done|done|done|done|]);
      [|by apply bookings_kept_refl].
    eapply bookings_kept_insert; [done|]. right. exists dc. by eauto.
  - eapply net_inv_frame; try done. by eapply bookings_kept_delete.
  - eapply net_inv_frame; try done. by apply bookings_kept_refl.
  - rewrite create_unfold.
    destruct (datacenters w !! self) as [dc|] eqn:Hdc;
      [|eapply net_inv_frame; try done; by apply bookings_kept_refl].
    destruct (Datacenter.net dc);
      [|eapply net_inv_frame; try done; by apply bookings_kept_refl].
    eapply net_inv_frame; try done.
    eapply bookings_kept_insert; [done|]. right. by exists dc.
  - eapply net_inv_frame; try done. by apply bookings_kept_refl.
  - rewrite startCompute_unfold.
    destruct (datacenters w !! self) as [dc|] eqn:Hdc;
      [|eapply net_inv_frame; try done; by apply bookings_kept_refl].
    destruct (Datacenter.net dc) as [n|] eqn:Hn;
      [|eapply net_inv_frame; try done; by apply bookings_kept_refl].
    case_bool_decide as Hin;
      [eapply net_inv_frame; try done; by apply bookings_kept_refl|].
    cbv zeta. unfold attach_and_record.
    destruct (Datacenter._resource_model dc) as [rm|] eqn:Hrmod.
    + destruct (allocate _ _ _ _) as [[[[]|e] g] s] eqn:Ha.
      * destruct (Datacenter.switch dc) as [sw|]; simpl.
        -- eapply (net_inv_start _ _ self dc name (fresh (dom (computes w)))
                     _ (map (Link.mk _ sw) (normalize_network nw)));
             try done; try apply is_fresh; eauto.
           intros l (p & -> & _)%list_elem_of_fmap. done.
        -- eapply (net_inv_start _ _ self dc name (fresh (dom (computes w)))
                     _ []);
             try done; try apply is_fresh; eauto.
           ++ simpl. by rewrite app_nil_r.
           ++ intros l Hl. by apply elem_of_nil in Hl.
      * simpl.
        eapply (net_inv_start _ _ self dc name (fresh (dom (computes w)))
                  _ []);
          try done; try apply is_fresh; eauto.
        -- simpl. by rewrite app_nil_r.
        -- intros l Hl. by apply elem_of_nil in Hl.
    + destruct (Datacenter.switch dc) as [sw|]; simpl.
      * eapply (net_inv_start _ _ self dc name (fresh (dom (computes w)))
                  _ (map (Link.mk _ sw) (normalize_network nw)));
          try done; try apply is_fresh; eauto.
        intros l (p & -> & _)%list_elem_of_fmap. done.
      * eapply (net_inv_start _ _ self dc name (fresh (dom (computes w)))
                  _ []);
          try done; try apply is_fresh; eauto.
        -- simpl. by rewrite app_nil_r.
        -- intros l Hl. by apply elem_of_nil in Hl.
  - rewrite startCompute_None. eapply net_inv_frame; try done.
    by apply bookings_kept_refl.
  - rewrite stopCompute_unfold.
    destruct (datacenters w !! self) as [dc|] eqn:Hdc;
      [|eapply net_inv_frame; try done; by apply bookings_kept_refl].
    destruct (Datacenter.containers dc !! name) as [d|] eqn:Hd;
      [|eapply net_inv_frame; try done; by apply bookings_kept_refl].
    unfold detach_and_forget.
    destruct (Datacenter._resource_model dc) as [rm|] eqn:Hrmod.
    + destruct (computes w !! d) as [c|] eqn:Hc;
        [|eapply net_inv_frame; try done; by apply bookings_kept_refl].
      destruct (free _ _ _ _) as [[[]|e] s] eqn:Hf.
      * destruct (Datacenter.net dc) as [n|] eqn:Hn; simpl;
          [|eapply net_inv_frame; try done; by apply bookings_kept_refl].
        by eapply (net_inv_stop _ _ self dc name d).
      * simpl. eapply net_inv_frame; try done. by apply bookings_kept_refl.
    + destruct (Datacenter.net dc) as [n|] eqn:Hn; simpl;
        [|eapply net_inv_frame; try done; by apply bookings_kept_refl].
      by eapply (net_inv_stop _ _ self dc name d).
  - rewrite stopCompute_None. eapply net_inv_frame; try done.
    by apply bookings_kept_refl.
  - eapply net_inv_frame; try done. by apply bookings_kept_refl.
  - eapply net_inv_frame; try done. by apply bookings_kept_refl.
  - rewrite assignResourceModel_unfold.
    destruct (datacenters w !! self) as [dc|] eqn:Hdc;
      [|eapply net_inv_frame; try done; by apply bookings_kept_refl].
    destruct (Datacenter._resource_model dc) eqn:Hrmod;
      [eapply net_inv_frame; try done; by apply bookings_kept_refl|].
    destruct (Datacenter.net dc) eqn:Hn; simpl;
      (eapply net_inv_frame; try done);
      (eapply bookings_kept_insert; [done|]; right; exists dc;
       by rewrite ?Hn; eauto).
Qed.

Lemma run_net_inv (s : RMS) os :
  rm_inv (run os (initial_world s)) ∧ net_inv (run os (initial_world s)).
Proof.
  apply (run_invariant (λ w, rm_inv w ∧ net_inv w));
    [|split; [apply rm_inv_init|apply net_inv_init]].
  intros o w [Hrm Hnet]. split; [|by apply exec_net_inv].
  eapply rm_trans_inv; [done|apply exec_rm_trans].
Qed.

Lemma filter_all {A} (P : A → Prop) `{∀ x, Decision (P x)} (l : list A) :
  (∀ x, x ∈ l → P x) → filter P l = l.
Proof.
  induction l as [|x l IH]; intros Hall; [done|].
  rewrite filter_cons_True by (apply Hall; by left).
  f_equal. apply IH. intros y Hy. apply Hall. by right.
Qed.

Lemma filter_none {A} (P : A → Prop) `{∀ x, Decision (P x)} (l : list A) :
  (∀ x, x ∈ l → ¬ P x) → filter P l = [].
Proof.
  induction l as [|x l IH]; intros Hall; [done|].
  rewrite filter_cons_False by (apply Hall; by left).
  apply IH. intros y Hy. apply Hall. by right.
Qed.

(** The state a [startCompute] that returns leaves. *)
Lemma startCompute_returns self name image command nw fl w d w' :
  startCompute self (Some name) image command nw fl w = (Return d, w') →
  ∃ dc sw c,
    datacenters w !! self = Some dc ∧
    is_Some (Datacenter.net dc) ∧
    Datacenter.switch dc = Some sw ∧
    (name ∉ container_names w (DCNetwork.hosts (network w))) ∧
    (d ∉ dom (computes w)) ∧
    computes w' = <[d := c]> (computes w) ∧
    EmulatorCompute.name c = name ∧
    network w' =
      DCNetwork.mk (DCNetwork.hosts (network w) ++ [d])
        (DCNetwork.switches (network w))
        (DCNetwork.links (network w) ++
         map (Link.mk d sw) (normalize_network nw))
        (DCNetwork.rm_registrar (network w)) ∧
    datacenters w' =
      <[self := Datacenter.with_containers dc
                  (<[name := d]> (Datacenter.containers dc))]>
        (datacenters w).
Proof.
  rewrite startCompute_unfold.
  destruct (datacenters w !! self) as [dc|] eqn:Hdc; [|done].
  destruct (Datacenter.net dc) eqn:Hn; [|done].
  case_bool_decide as Hin; [done|]. cbv zeta. unfold attach_and_record.
  destruct (Datacenter._resource_model dc) as [rm|].
  - destruct (allocate _ _ _ _) as [[[[]|e] g] s]; [|done].
    destruct (Datacenter.switch dc) as [sw|] eqn:Hsw; [|done].
    intros [= <- <-]. exists dc, sw. eexists. simpl.
    split; [done|]. split; [by eauto|]. split; [done|].
    split; [exact Hin|]. split; [apply is_fresh|]. by split.
  - destruct (Datacenter.switch dc) as [sw|] eqn:Hsw; [|done].
    intros [= <- <-]. exists dc, sw. eexists. simpl.
    split; [done|]. split; [by eauto|]. split; [done|].
    split; [exact Hin|]. split; [apply is_fresh|]. by split.
Qed.

(** The state a [stopCompute] that returns leaves. *)
Lemma stopCompute_returns self name w b w' :
  stopCompute self (Some name) w = (Return b, w') →
  ∃ dc d,
    datacenters w !! self = Some dc ∧
    Datacenter.containers dc !! name = Some d ∧
    computes w' = computes w ∧
    network w' =
      DCNetwork.mk
        (filter (λ c, EmulatorCompute.name <$> computes w !! c ≠ Some name)
           (DCNetwork.hosts (network w)))
        (DCNetwork.switches (network w))
        (filter (λ l, ¬ link_between d (Datacenter.switch dc) l)
           (DCNetwork.links (network w)))
        (DCNetwork.rm_registrar (network w)) ∧
    datacenters w' =
      <[self := Datacenter.with_containers dc
                  (delete name (Datacenter.containers dc))]>
        (datacenters w).
Proof.
  rewrite stopCompute_unfold.
  destruct (datacenters w !! self) as [dc|] eqn:Hdc; [|done].
  destruct (Datacenter.containers dc !! name) as [d|] eqn:Hd; [|done].
  unfold detach_and_forget.
  destruct (Datacenter._resource_model dc) as [rm|].
  - destruct (computes w !! d) as [c|]; [|done].
    destruct (free rm d c (rm_state w)) as [[[]|e] s1]; [|done].
    destruct (Datacenter.net dc); [|done].
    intros [= <- <-]. by exists dc, d.
  - destruct (Datacenter.net dc); [|done].
    intros [= <- <-]. by exists dc, d.
Qed.

(** X12: in a state of a run, a [startCompute] that returns and a
    [stopCompute] of the same name that returns right after it leave the
    data centers and the network as they were before the two calls: the
    entries, the containers, the switches and the links. *)
Theorem start_then_stop_restores (s : RMS) os self name image command nw fl
    d w1 b w2 :
  let w := run os (initial_world s) in
  startCompute self (Some name) image command nw fl w = (Return d, w1) →
  stopCompute self (Some name) w1 = (Return b, w2) →
  datacenters w2 = datacenters w ∧ network w2 = network w.
Proof.
  intros w Hstart Hstop.
  destruct (run_net_inv s os) as [Hrm [Hh Hl He Hn]]. fold w in Hrm, Hh, Hl, He, Hn.
  apply startCompute_returns in Hstart
    as (dc & sw & c & Hdc & _ & Hsw & Hname & Hfresh & Hcs1 & Hc & Hnet1 & Hdcs1).
  apply stopCompute_returns in Hstop
    as (dc1 & d1 & Hdc1 & Hd1 & _ & Hnet2 & Hdcs2).
  rewrite Hdcs1, lookup_insert_eq in Hdc1. injection Hdc1 as <-.
  simpl in Hd1. rewrite lookup_insert_eq in Hd1. injection Hd1 as <-.
  assert (Datacenter.containers dc !! name = None) as Hnone.
  { destruct (Datacenter.containers dc !! name) as [d'|] eqn:Hd'; [|done].
    destruct Hname.
    destruct (inv_booked _ Hrm _ _ _ _ Hdc Hd') as ((c' & Hc' & <- & _) & _).
    eapply elem_of_container_names; [|done]. by eapply He. }
  split.
  - rewrite Hdcs2, Hdcs1, insert_insert_eq. simpl.
    rewrite delete_insert_id by done.
    apply insert_id. rewrite Hdc. by destruct dc.
  - rewrite Hnet2, Hnet1. simpl. rewrite !filter_app.
    rewrite (filter_all _ (DCNetwork.hosts (network w))).
    2:{ intros h Hh'. rewrite Hcs1, lookup_insert_ne
          by (intros <-; by apply Hfresh, Hh).
        intros Heq. apply Hname, list_elem_of_omap. by exists h. }
    rewrite (filter_none _ [d]).
    2:{ intros h ->%list_elem_of_singleton.
        rewrite Hcs1, lookup_insert_eq. simpl. rewrite Hc. by intros []. }
    rewrite (filter_all _ (DCNetwork.links (network w))).
    2:{ intros l Hl'. unfold link_between.
        rewrite bool_decide_false; [by intros []|].
        intros Heq. apply Hfresh. rewrite <- Heq. by apply Hl. }
    rewrite (filter_none _ (map _ _)).
    2:{ intros l (p & -> & _)%list_elem_of_fmap. unfold link_between.
        simpl. rewrite Hsw, !bool_decide_true by done. by intros []. }
    rewrite !app_nil_r. by destruct (network w).
Qed.

(** X13: in a state of a run a name runs in one data center at most: two
    entries of the same name, in whichever data centers, are the same
    entry of the same data center. *)
Theorem name_runs_in_one_datacenter (s : RMS) os self1 self2 dc1 dc2
    name d1 d2 :
  let w := run os (initial_world s) in
  datacenters w !! self1 = Some dc1 →
  Datacenter.containers dc1 !! name = Some d1 →
  datacenters w !! self2 = Some dc2 →
  Datacenter.containers dc2 !! name = Some d2 →
  self1 = self2 ∧ d1 = d2.
Proof.
  intros w Hdc1 Hd1 Hdc2 Hd2.
  destruct (run_net_inv s os) as [Hrm [Hh Hl He Hn]].
  fold w in Hrm, Hh, Hl, He, Hn.
  destruct (inv_booked _ Hrm _ _ _ _ Hdc1 Hd1) as ((c1 & Hc1 & Hn1 & _) & _).
  destruct (inv_booked _ Hrm _ _ _ _ Hdc2 Hd2) as ((c2 & Hc2 & Hn2 & _) & _).
  assert (d1 = d2) as ->.
  { eapply (NoDup_omap_inj
              (λ c, EmulatorCompute.name <$> computes w !! c)
              (DCNetwork.hosts (network w)) d1 d2 name Hn);
      [exact (He _ _ _ _ Hdc1 Hd1)|exact (He _ _ _ _ Hdc2 Hd2)| |].
    - rewrite Hc1. simpl. by rewrite Hn1.
    - rewrite Hc2. simpl. by rewrite Hn2. }
  by destruct (booked_once _ _ _ _ _ _ _ _ Hrm Hdc1 Hd1 Hdc2 Hd2).
Qed.

(** X14: in a state of a run the name of a running instance is taken in
    the whole network: while a data center has an entry of the name,
    [startCompute] of that name raises the "already exists" exception on
    every data center of the network and changes nothing. *)
Theorem running_name_is_taken (s : RMS) os self dc name d self' dc'
    image command nw fl :
  let w := run os (initial_world s) in
  datacenters w !! self = Some dc →
  Datacenter.containers dc !! name = Some d →
  datacenters w !! self' = Some dc' →
  Datacenter.net dc' = Some the_DCNetwork →
  startCompute self' (Some name) image command nw fl w =
  (Raise (Exception (msg_already_exists name)), w).
Proof.
  intros w Hdc Hd Hdc' Hnet'.
  destruct (run_net_inv s os) as [Hrm [Hh Hl He Hn]].
  fold w in Hrm, Hh, Hl, He, Hn.
  destruct (inv_booked _ Hrm _ _ _ _ Hdc Hd) as ((c & Hc & <- & _) & _).
  rewrite startCompute_unfold, Hdc', Hnet'.
  rewrite bool_decide_true; [done|].
  eapply elem_of_container_names; [|done]. exact (He _ _ _ _ Hdc Hd).
Qed.


End NetworkLemmas.

(** ** The theorems at work *)

(** ["vnf1"] runs in the first data center; the second one may not start
    a container of that name. *)
Lemma startCompute_name_conflict_witness :
  startCompute 2 (Some "vnf1") None None NetNone default_flavor_name
    world_two_datacenters =
  (Raise (Exception (msg_already_exists "vnf1")), world_two_datacenters).
Proof.
  eapply (startCompute_name_conflict world_two_datacenters 2 _ 1);
    [vm_compute; reflexivity | vm_compute; reflexivity
    | apply (bool_decide_unpack _); vm_compute; exact I
    | vm_compute; reflexivity | reflexivity].
Defined.

Lemma stopCompute_unknown_name_witness :
  stopCompute 1 (Some "vnf2") world_running =
  (Raise (Exception (msg_not_found "vnf2")), world_running).
Proof.
  eapply (stopCompute_unknown_name world_running 1); vm_compute; reflexivity.
Defined.

Lemma assignResourceModel_twice_witness :
  let w1 := (assignResourceModel 1 7 world_running).2 in
  (∃ dc1, datacenters w1 !! 1%positive = Some dc1 ∧
          Datacenter._resource_model dc1 = Some 7%positive) ∧
  assignResourceModel 1 8 w1 = (Raise (Exception msg_already_assigned), w1).
Proof.
  eapply (assignResourceModel_twice world_running 1); vm_compute; reflexivity.
Defined.

Lemma startCompute_defaults_witness :
  ∃ dc s c specs,
    datacenters world_created !! 1%positive = Some dc ∧
    Datacenter.switch dc = Some s ∧
    computes world_running !! 1%positive = Some c ∧
    EmulatorCompute.dimage c = "ubuntu" ∧
    DCNetwork.links (network world_running) =
      DCNetwork.links (network world_created) ++ map (Link.mk 1 s) specs ∧
    1 ≤ length specs ∧
    specs = [{["ip" := "10.0.0.1/24"]}].
Proof.
  apply (startCompute_defaults world_created 1 (Some "vnf1") (Some "ubuntu")
           None (NetDict {["ip" := "10.0.0.1/24"]}) default_flavor_name
           1 world_running).
  vm_compute; reflexivity.
Defined.

Lemma listCompute_started_not_stopped_witness :
  let w' := (do_calls 1 example_calls world_created).2 in
  Forall2 answers example_calls example_events ∧
  NoDup (live_instances example_events).*1 ∧
  ∃ ds, listCompute 1 w' = (Return ds, w') ∧
        ds ≡ₚ (live_instances example_events).*2.
Proof.
  eapply (listCompute_started_not_stopped world_created 1).
  - vm_compute; reflexivity.
  - vm_compute; reflexivity.
  - apply (bool_decide_unpack _). vm_compute. exact I.
  - vm_compute; reflexivity.
Defined.


Lemma getStatus_needs_create_witness :
  getStatus 1 (run [OAdopt 1; OStart 1; OGetStatus 1]
                 (Datacenter__init__ "DC1" ∅ None example_world).2) =
  (Raise AttributeError,
   run [OAdopt 1; OStart 1; OGetStatus 1]
     (Datacenter__init__ "DC1" ∅ None example_world).2) ∧
  ∃ dc, datacenters world_created !! 1%positive = Some dc ∧
        getStatus 1 world_created =
        (Return {| st_label := Datacenter.label dc;
                   st_internalname := Datacenter.name dc;
                   st_switch := fmt_switch_name (Datacenter.name dc);
                   st_n_running_containers :=
                     size (Datacenter.containers dc);
                   st_metadata := Datacenter.metadata dc |}, world_created).
Proof.
  split.
  - apply (proj1 getStatus_needs_create example_world "DC1" ∅ None
             [OAdopt 1; OStart 1; OGetStatus 1]);
      apply (bool_decide_unpack _); vm_compute; exact I.
  - apply (proj2 getStatus_needs_create
             (run [ONew "DC1" ∅ None; OAdopt 1] example_world) 1%positive
             world_created).
    vm_compute; reflexivity.
Defined.


Lemma startCompute_asserts_name_witness :
  ∃ d w' dc',
    startCompute 1 (Some EmptyString) None None NetNone default_flavor_name
      world_created = (Return d, w') ∧
    is_Some (computes w' !! d) ∧
    d ∈ DCNetwork.hosts (network w') ∧
    datacenters w' !! 1%positive = Some dc' ∧
    Datacenter.containers dc' !! EmptyString = Some d.
Proof.
  eapply (proj2 startCompute_asserts_name world_created 1%positive).
  - vm_compute; reflexivity.
  - vm_compute; reflexivity.
  - vm_compute; reflexivity.
  - vm_compute; reflexivity.
  - apply (bool_decide_unpack _). vm_compute. exact I.
Defined.

(** ** Where the specification and the code part *)


(** C9 as the specification has it does not hold: the empty string is a
    name like any other; the container is created, resources are
    allocated for it and it gets its entry. *)
Lemma startCompute_empty_name_accepted :
  let call := startCompute 1 (Some EmptyString) None None NetNone
                default_flavor_name world_with_model in
  call.1 = Return 1%positive ∧
  EmulatorCompute.name <$> computes call.2 !! 1%positive = Some EmptyString ∧
  DCNetwork.hosts (network call.2) = [1%positive] ∧
  rm_calls call.2 = [CallAllocate 7 1 true] ∧
  (datacenters call.2 !! 1%positive ≫=
     λ dc, Datacenter.containers dc !! EmptyString) = Some 1%positive.
Proof. vm_compute. repeat split. Qed.
(** ** The further properties at work *)

Lemma calls_leave_others_alone_witness :
  ∃ dc, datacenters world_two_datacenters !! 2%positive = Some dc ∧
        datacenters (run calls_on_first world_two_datacenters) !! 2%positive
        = Some dc.
Proof.
  eexists. split; [vm_compute; reflexivity|].
  apply (calls_leave_others_alone calls_on_first world_two_datacenters 2).
  - vm_compute; reflexivity.
  - apply (bool_decide_unpack _). vm_compute. exact I.
Defined.

Lemma instance_in_one_map_witness :
  ∃ c, computes world_two_datacenters !! 1%positive = Some c ∧
       EmulatorCompute.name c = "vnf1" ∧
       EmulatorCompute.datacenter c = Some 1%positive.
Proof.
  refine (proj2 (proj2
    (instance_in_one_map {| capacity := 2; allocated := [] |}
       (two_datacenters ++
        [OStartCompute 1 (Some "vnf1") None None NetNone
           default_flavor_name])
       1%positive 1%positive _ _ "vnf1" "vnf1" 1%positive _ _ _ _)));
    vm_compute; reflexivity.
Defined.

Lemma getStatus_counts_listCompute_witness :
  ∃ ds, listCompute 1 world_two_datacenters =
          (Return ds, world_two_datacenters) ∧
        NoDup ds ∧ length ds = 1.
Proof.
  refine (proj2
    (getStatus_counts_listCompute {| capacity := 2; allocated := [] |}
       (two_datacenters ++
        [OStartCompute 1 (Some "vnf1") None None NetNone
           default_flavor_name])
       1%positive
       {| st_label := "DC1"; st_internalname := "dc1";
          st_switch := "dc1.s1"; st_n_running_containers := 1;
          st_metadata := ∅ |}
       world_two_datacenters _)).
  vm_compute; reflexivity.
Defined.

Lemma refused_allocation_keeps_container_witness :
  let call := startCompute 1 (Some "vnf1") None None NetNone
                default_flavor_name world_no_room in
  call.1 = Raise (ModelError "not enough resources") ∧
  datacenters call.2 = datacenters world_no_room ∧
  DCNetwork.links (network call.2) = DCNetwork.links (network world_no_room) ∧
  DCNetwork.hosts (network call.2) =
    DCNetwork.hosts (network world_no_room) ++
    [fresh (dom (computes world_no_room))] ∧
  ∀ self2 dc2 image2 command2 nw2 fl2,
    datacenters call.2 !! self2 = Some dc2 →
    Datacenter.net dc2 = Some the_DCNetwork →
    startCompute self2 (Some "vnf1") image2 command2 nw2 fl2 call.2 =
    (Raise (Exception (msg_already_exists "vnf1")), call.2).
Proof.
  eapply (refused_allocation_keeps_container world_no_room 1 _ 7 "vnf1").
  - vm_compute; reflexivity.
  - vm_compute; reflexivity.
  - vm_compute; reflexivity.
  - apply (bool_decide_unpack _). vm_compute. exact I.
  - vm_compute; reflexivity.
Defined.

Lemma failed_free_keeps_entry_witness :
  let call := stopCompute 1 (Some "vnf1") world_assigned_late in
  call.1 = Raise (KeyError "vnf1") ∧
  datacenters call.2 = datacenters world_assigned_late ∧
  network call.2 = network world_assigned_late ∧
  computes call.2 = computes world_assigned_late ∧
  rm_state call.2 = {| capacity := 2; allocated := [] |}.
Proof.
  eapply (failed_free_keeps_entry world_assigned_late 1 _ "vnf1" 1 7);
    vm_compute; reflexivity.
Defined.

Lemma assignResourceModel_binds_first_witness :
  let call := assignResourceModel 1 7 world_constructed in
  call.1 = Raise AttributeError ∧
  network call.2 = network world_constructed ∧
  ∀ rm2, assignResourceModel 1 rm2 call.2 =
         (Raise (Exception msg_already_assigned), call.2).
Proof.
  refine (proj2
    (assignResourceModel_binds_first world_constructed 1
       (Datacenter.mk None "dc1" "DC1" ∅ None None ∅ None) 7 _ _));
    vm_compute; reflexivity.
Defined.

Lemma create_twice_witness :
  ∃ s1 s2 w2 dc1 dc2,
    create 1 world_created = (Return tt, w2) ∧
    DCNetwork.switches (network w2) =
      DCNetwork.switches (network world_adopted) ++ [s1; s2] ∧
    Switch.name s1 = Switch.name s2 ∧
    Switch.dpid s1 ≠ Switch.dpid s2 ∧
    datacenters world_created !! 1%positive = Some dc1 ∧
    Datacenter.switch dc1 = Some s1 ∧
    datacenters w2 !! 1%positive = Some dc2 ∧
    Datacenter.switch dc2 = Some s2.
Proof.
  apply (create_twice world_adopted 1 world_created).
  - apply (bool_decide_unpack _). vm_compute. exact I.
  - vm_compute; reflexivity.
Defined.

Lemma stopCompute_leaves_no_trace_witness :
  let w' := (stopCompute 1 (Some "vnf1") world_running).2 in
  ∃ dc d dc',
    datacenters world_running !! 1%positive = Some dc ∧
    Datacenter.containers dc !! "vnf1" = Some d ∧
    datacenters w' !! 1%positive = Some dc' ∧
    Datacenter.containers dc' = delete "vnf1" (Datacenter.containers dc) ∧
    ("vnf1" ∉ container_names w' (DCNetwork.hosts (network w'))) ∧
    (∀ l, l ∈ DCNetwork.links (network w') →
          ¬ (Link.node1 l = d ∧
             Some (Link.node2 l) = Datacenter.switch dc)) ∧
    DCNetwork.switches (network w') =
      DCNetwork.switches (network world_running) ∧
    computes w' = computes world_running.
Proof.
  refine (proj2
    (stopCompute_leaves_no_trace world_running 1 "vnf1" true
       (stopCompute 1 (Some "vnf1") world_running).2 _)).
  vm_compute; reflexivity.
Defined.

Lemma startCompute_records_witness :
  let w' := (startCompute 1 (Some "vnf1") None None NetNone
               default_flavor_name world_with_model).2 in
  ∃ dc dc' c,
    datacenters world_with_model !! 1%positive = Some dc ∧
    computes world_with_model !! 1%positive = None ∧
    computes w' = <[1%positive := c]> (computes world_with_model) ∧
    EmulatorCompute.name c = "vnf1" ∧
    EmulatorCompute.dcmd c = None ∧
    EmulatorCompute.datacenter c = Some 1%positive ∧
    EmulatorCompute.flavor_name c = Some default_flavor_name ∧
    match Datacenter._resource_model dc with
    | None =>
        EmulatorCompute.grant c = no_limits ∧
        rm_state w' = rm_state world_with_model
    | Some rm =>
        allocate rm 1%positive
          (Docker__init__ "vnf1" (default default_image None) None
             (Some 1%positive) (Some default_flavor_name))
          (rm_state world_with_model) =
        (Return tt, EmulatorCompute.grant c, rm_state w')
    end ∧
    DCNetwork.hosts (network w') =
      DCNetwork.hosts (network world_with_model) ++ [1%positive] ∧
    datacenters w' !! 1%positive = Some dc' ∧
    Datacenter.containers dc' =
      <[("vnf1" : string) := 1%positive]> (Datacenter.containers dc).
Proof.
  apply (startCompute_records world_with_model 1 "vnf1" None None NetNone
           default_flavor_name 1).
  vm_compute; reflexivity.
Defined.


Lemma start_then_stop_restores_witness :
  let w2 := (stopCompute 1 (Some "vnf1") world_running).2 in
  datacenters w2 = datacenters world_created ∧
  network w2 = network world_created.
Proof.
  apply (start_then_stop_restores {| capacity := 2; allocated := [] |}
           [ONew "DC1" ∅ None; OAdopt 1; OCreate 1] 1%positive "vnf1"
           (Some "ubuntu") None (NetDict {["ip" := "10.0.0.1/24"]})
           default_flavor_name 1%positive world_running true).
  - vm_compute; reflexivity.
  - vm_compute; reflexivity.
Defined.

Lemma name_runs_in_one_datacenter_witness :
  ∃ dc, datacenters world_two_datacenters !! 1%positive = Some dc ∧
        Datacenter.containers dc !! "vnf1" = Some 1%positive ∧
        1%positive = 1%positive ∧ 1%positive = 1%positive.
Proof.
  eexists. split; [vm_compute; reflexivity|].
  split; [vm_compute; reflexivity|].
  eapply (name_runs_in_one_datacenter {| capacity := 2; allocated := [] |}
            (two_datacenters ++
             [OStartCompute 1 (Some "vnf1") None None NetNone
                default_flavor_name])
            1%positive 1%positive _ _ "vnf1");
    vm_compute; reflexivity.
Defined.

Lemma running_name_is_taken_witness :
  startCompute 2 (Some "vnf1") (Some "ubuntu") None (NetList [])
    default_flavor_name world_two_datacenters =
  (Raise (Exception (msg_already_exists "vnf1")), world_two_datacenters).
Proof.
  unfold world_two_datacenters, example_world.
  eapply (running_name_is_taken {| capacity := 2; allocated := [] |}
            (two_datacenters ++
             [OStartCompute 1 (Some "vnf1") None None NetNone
                default_flavor_name])
            1%positive _ "vnf1" 1%positive 2%positive _
            (Some "ubuntu") None (NetList []) default_flavor_name);
    vm_compute; reflexivity.
Defined.


Lemma model_called_by_start_and_stop_only_witness :
  ∃ self dc rm name d ok,
    datacenters world_with_model !! self = Some dc ∧
    Datacenter._resource_model dc = Some rm ∧
    ((∃ image command nw fl,
        OStartCompute 1 (Some "vnf1") None None NetNone default_flavor_name
        = OStartCompute self (Some name) image command nw fl ∧
        computes world_with_model !! d = None ∧
        rm_calls (run [OStartCompute 1 (Some "vnf1") None None NetNone
                         default_flavor_name] world_with_model) =
        CallAllocate rm d ok :: rm_calls world_with_model) ∨
     (OStartCompute 1 (Some "vnf1") None None NetNone default_flavor_name
      = OStopCompute self (Some name) ∧
      Datacenter.containers dc !! name = Some d ∧
      rm_calls (run [OStartCompute 1 (Some "vnf1") None None NetNone
                       default_flavor_name] world_with_model) =
      CallFree rm d ok :: rm_calls world_with_model)).
Proof.
  apply (model_called_by_start_and_stop_only
           (OStartCompute 1 (Some "vnf1") None None NetNone
              default_flavor_name) world_with_model).
  left. apply (bool_decide_unpack _). vm_compute. exact I.
Defined.
